(** * IO-Link master for ClearCore: frame codec, device registry and
      message exchange, embedded from [IOLink.h] / [IOLink.cpp]. *)

From Stdlib Require Import ZArith List Bool Lia.
Import ListNotations.
Open Scope Z_scope.

(* ------------------------------------------------------------------ *)
(** ** Fixed-width integers *)

(** [uint8_t] and [uint32_t] values are integers with the narrowing
    conversion written out. *)
Definition to_u8 (x : Z) : Z := x mod 256.
Definition to_u32 (x : Z) : Z := x mod 4294967296.

Definition is_u8 (x : Z) : Prop := 0 <= x < 256.
Definition is_u32 (x : Z) : Prop := 0 <= x < 4294967296.

(** [a ^ b] stored back into a [uint8_t]. *)
Definition xor8 (a b : Z) : Z := to_u8 (Z.lxor a b).

(** [a - b] on [uint32_t]. *)
Definition sub32 (a b : Z) : Z := to_u32 (a - b).

(* ------------------------------------------------------------------ *)
(** ** Enumerations of [IOLink.h] *)

Inductive OperationMode : Type := SIO | COM1 | COM2 | COM3.

Inductive MessageType : Type := PROCESS_DATA | PARAMETER | DIAGNOSTIC | EVENT.

Inductive ErrorCode : Type :=
  | NONE
  | COMMUNICATION_ERROR
  | DEVICE_ERROR
  | TIMEOUT
  | INVALID_PARAMETER
  | NOT_SUPPORTED.

Definition OperationMode_eqb (a b : OperationMode) : bool :=
  match a, b with
  | SIO, SIO | COM1, COM1 | COM2, COM2 | COM3, COM3 => true
  | _, _ => false
  end.

Definition MessageType_eqb (a b : MessageType) : bool :=
  match a, b with
  | PROCESS_DATA, PROCESS_DATA | PARAMETER, PARAMETER
  | DIAGNOSTIC, DIAGNOSTIC | EVENT, EVENT => true
  | _, _ => false
  end.

(* ------------------------------------------------------------------ *)
(** ** IOLinkDevice *)

Module IOLinkDevice.

(** The base class: three identification fields and the default
    bodies of the virtual methods.  A [std::vector<uint8_t>&] that a
    method may fill is passed in and returned. *)
Record t : Type := make {
  m_deviceId : Z;   (* uint8_t  *)
  m_vendorId : Z;   (* uint32_t *)
  m_productId : Z   (* uint32_t *)
}.

Definition getDeviceId (d : t) : Z := m_deviceId d.
Definition getVendorId (d : t) : Z := m_vendorId d.
Definition getProductId (d : t) : Z := m_productId d.

Definition supportsOperationMode (d : t) (mode : OperationMode) : bool :=
  OperationMode_eqb mode COM2.

Definition getMinCycleTime (d : t) : Z := 2.

Definition readProcessData (d : t) (data : list Z) : ErrorCode * list Z :=
  (NOT_SUPPORTED, data).

Definition writeProcessData (d : t) (data : list Z) : ErrorCode :=
  NOT_SUPPORTED.

Definition readParameter (d : t) (index subindex : Z) (data : list Z)
  : ErrorCode * list Z :=
  (NOT_SUPPORTED, data).

Definition writeParameter (d : t) (index subindex : Z) (data : list Z)
  : ErrorCode :=
  NOT_SUPPORTED.

Definition readDiagnostic (d : t) (data : list Z) : ErrorCode * list Z :=
  (NOT_SUPPORTED, data).

End IOLinkDevice.

(* ------------------------------------------------------------------ *)
(** ** Frame codec: [parseIOLinkMessage] and [buildIOLinkMessage] *)

Definition START_BYTE : Z := 0xA5.

(** The [switch] of [buildIOLinkMessage]. *)
Definition type_to_byte (type : MessageType) : Z :=
  match type with
  | PROCESS_DATA => 0x01
  | PARAMETER => 0x02
  | DIAGNOSTIC => 0x03
  | EVENT => 0x04
  end.

(** The [switch] of [parseIOLinkMessage]; [None] is its [default]. *)
Definition byte_to_type (typeValue : Z) : option MessageType :=
  if typeValue =? 0x01 then Some PROCESS_DATA
  else if typeValue =? 0x02 then Some PARAMETER
  else if typeValue =? 0x03 then Some DIAGNOSTIC
  else if typeValue =? 0x04 then Some EVENT
  else None.

(** [for (uint8_t byte : payload) checksum ^= byte;] *)
Definition xor_bytes (payload : list Z) (checksum : Z) : Z :=
  fold_left xor8 payload checksum.

(** What [parseIOLinkMessage] hands back: on [ErrorCode::NONE] the two
    reference parameters [type] and [payload], otherwise the error
    code (no caller reads the reference parameters then). *)
Inductive ParseResult : Type :=
  | Parsed (type : MessageType) (payload : list Z)
  | ParseFailed (e : ErrorCode).

(** [for (uint8_t i = 0; i < length; i++) payload.push_back(rawData[3 + i]);]
    with [count] the iterations still to run. *)
Fixpoint payload_loop (rawData : list Z) (count : nat) (i : Z)
  (payload : list Z) : list Z :=
  match count with
  | O => payload
  | S count' =>
      payload_loop rawData count' (i + 1)
        (payload ++ [nth (Z.to_nat (3 + i)) rawData 0])
  end.

Definition parseIOLinkMessage (rawData : list Z) : ParseResult :=
  let size := Z.of_nat (length rawData) in
  if size <? 4 then ParseFailed COMMUNICATION_ERROR
  else if negb (nth 0 rawData 0 =? START_BYTE) then
    ParseFailed COMMUNICATION_ERROR
  else
    let typeValue := nth 1 rawData 0 in
    match byte_to_type typeValue with
    | None => ParseFailed COMMUNICATION_ERROR
    | Some type =>
        let length := nth 2 rawData 0 in
        if size <? length + 4 then ParseFailed COMMUNICATION_ERROR
        else
          let payload := payload_loop rawData (Z.to_nat length) 0 [] in
          let checksum := nth (Z.to_nat (3 + length)) rawData 0 in
          let calculatedChecksum :=
            xor_bytes payload
              (to_u8 (Z.lxor (Z.lxor START_BYTE typeValue) length)) in
          if negb (checksum =? calculatedChecksum) then
            ParseFailed COMMUNICATION_ERROR
          else Parsed type payload
    end.

Definition buildIOLinkMessage (type : MessageType) (payload : list Z)
  : list Z :=
  let typeValue := type_to_byte type in
  let size8 := to_u8 (Z.of_nat (length payload)) in
  let message := [START_BYTE] ++ [typeValue] ++ [size8] ++ payload in
  let checksum :=
    xor_bytes payload (to_u8 (Z.lxor (Z.lxor START_BYTE typeValue) size8)) in
  message ++ [checksum].

(* ------------------------------------------------------------------ *)
(** ** The platform: serial port and millisecond clock *)

(** Modelled from the spec: the Transport Adapter of section 6
    ([sendByte], [bytesAvailable], [readByte], [elapsedTime]), which the
    source reaches through ClearCore's [SerialDriver], [Milliseconds()]
    and [delay()].  Time is counted in milliseconds and passes only
    inside [delay]; the bytes a device puts on the line during one
    millisecond are one chunk of [line] and become readable when that
    millisecond has passed. *)
Record World : Type := mkWorld {
  clock : Z;              (* milliseconds since power-up *)
  rx_fifo : list Z;       (* received, not yet read *)
  line : list (list Z);   (* still to arrive, one chunk per millisecond *)
  tx_log : list Z         (* every byte sent so far, oldest first *)
}.

Definition SendChar (c : Z) (w : World) : World :=
  mkWorld (clock w) (rx_fifo w) (line w) (tx_log w ++ [c]).

Definition BytesAvailable (w : World) : Z := Z.of_nat (length (rx_fifo w)).

(** [ReadChar] answers -1 on an empty buffer. *)
Definition ReadChar (w : World) : Z * World :=
  match rx_fifo w with
  | [] => (-1, w)
  | c :: rest => (c, mkWorld (clock w) rest (line w) (tx_log w))
  end.

Definition Milliseconds (w : World) : Z := to_u32 (clock w).

Definition tick (w : World) : World :=
  mkWorld (clock w + 1) (rx_fifo w ++ hd [] (line w)) (tl (line w)) (tx_log w).

Definition delay (ms : Z) (w : World) : World := Z.iter ms tick w.

(** Every byte the transport will ever offer, in arrival order. *)
Definition incoming (w : World) : list Z := rx_fifo w ++ concat (line w).

(* ------------------------------------------------------------------ *)
(** ** IOLinkMaster *)

(** [m_devices] is a vector of shared pointers: [None] is the null
    pointer.  [m_serialPort] is the [World] threaded through every
    method; the event callback plays no part in the methods below. *)
Record IOLinkMaster : Type := mkMaster {
  m_devices : list (option IOLinkDevice.t)
}.

Definition size (m : IOLinkMaster) : Z := Z.of_nat (length (m_devices m)).

(** [for (int i = 0; i < 10; i++) m_serialPort.SendChar(wakeupPattern);] *)
Fixpoint wakeup_loop (count : nat) (wakeupPattern : Z) (w : World) : World :=
  match count with
  | O => w
  | S count' => wakeup_loop count' wakeupPattern (SendChar wakeupPattern w)
  end.

Definition activatePort (port : Z) (mode : OperationMode)
  (m : IOLinkMaster) (w : World) : ErrorCode * IOLinkMaster * World :=
  if port >=? size m then (INVALID_PARAMETER, m, w)
  else
    let wakeupPattern := 0x00 in
    (NONE, m, wakeup_loop 10 wakeupPattern w).

Definition deactivatePort (port : Z) (m : IOLinkMaster) (w : World)
  : ErrorCode * IOLinkMaster * World :=
  if port >=? size m then (INVALID_PARAMETER, m, w)
  else (NONE, m, w).

Definition dummyDevice : IOLinkDevice.t :=
  IOLinkDevice.make 1 0x12345678 0x87654321.

Definition scanForDevices (m : IOLinkMaster) (w : World)
  : ErrorCode * IOLinkMaster * World :=
  let cleared : list (option IOLinkDevice.t) := [] in
  (NONE, mkMaster (cleared ++ [Some dummyDevice]), w).

Definition getDevice (port : Z) (m : IOLinkMaster) : option IOLinkDevice.t :=
  if port <? size m then nth (Z.to_nat port) (m_devices m) None
  else None.

(** [for (uint8_t byte : message) m_serialPort.SendChar(byte);] *)
Fixpoint send_loop (message : list Z) (w : World) : World :=
  match message with
  | [] => w
  | byte :: rest => send_loop rest (SendChar byte w)
  end.

Definition sendMessage (port : Z) (type : MessageType) (data : list Z)
  (m : IOLinkMaster) (w : World) : ErrorCode * IOLinkMaster * World :=
  if port >=? size m then (INVALID_PARAMETER, m, w)
  else
    let message := buildIOLinkMessage type data in
    (NONE, m, send_loop message w).

(** [while (BytesAvailable() > 0) rawData.push_back(ReadChar());]
    No time passes while reading, so the loop runs once per buffered
    byte; [count] is that number. *)
Fixpoint read_loop (count : nat) (rawData : list Z) (w : World)
  : list Z * World :=
  match count with
  | O => (rawData, w)
  | S count' =>
      if BytesAvailable w >? 0 then
        let (c, w') := ReadChar w in
        read_loop count' (rawData ++ [to_u8 c]) w'
      else (rawData, w)
  end.

Definition read_available (rawData : list Z) (w : World) : list Z * World :=
  read_loop (length (rx_fifo w)) rawData w.

(** The polling loop of [receiveMessage].  [fuel] bounds the number of
    iterations; [None] means the bound was reached first. *)
Fixpoint receive_loop (fuel : nat) (type : MessageType) (data : list Z)
  (timeout startTime : Z) (rawData : list Z) (w : World)
  : option (ErrorCode * list Z * World) :=
  match fuel with
  | O => None
  | S fuel' =>
      if sub32 (Milliseconds w) startTime <? timeout then
        if BytesAvailable w >? 0 then
          let (rawData', w1) := read_available rawData w in
          match parseIOLinkMessage rawData' with
          | Parsed receivedType payload =>
              if MessageType_eqb receivedType type then Some (NONE, payload, w1)
              else
                receive_loop fuel' type data timeout startTime rawData'
                  (delay 1 w1)
          | ParseFailed _ =>
              receive_loop fuel' type data timeout startTime rawData'
                (delay 1 w1)
          end
        else
          receive_loop fuel' type data timeout startTime rawData (delay 1 w)
      else Some (TIMEOUT, data, w)
  end.

(** [data] is the caller's vector, returned untouched unless a frame is
    accepted; [timeout] is a [uint32_t]. *)
Definition receiveMessage (fuel : nat) (port : Z) (type : MessageType)
  (data : list Z) (timeout : Z) (m : IOLinkMaster) (w : World)
  : option (ErrorCode * list Z * IOLinkMaster * World) :=
  if port >=? size m then Some (INVALID_PARAMETER, data, m, w)
  else
    let startTime := Milliseconds w in
    match receive_loop fuel type data timeout startTime [] w with
    | Some (e, data', w') => Some (e, data', m, w')
    | None => None
    end.

(* ------------------------------------------------------------------ *)
(** ** Vocabulary of the properties *)

(** Bit [k] of a byte inverted. *)
Definition flip_bit (b k : Z) : Z := Z.lxor b (Z.shiftl 1 k).

(** Bit [k] of byte number [i] of a frame inverted. *)
Fixpoint flip_at (i : nat) (k : Z) (frame : list Z) : list Z :=
  match frame, i with
  | [], _ => []
  | b :: rest, O => flip_bit b k :: rest
  | b :: rest, S i' => b :: flip_at i' k rest
  end.

(** The checksum a frame with this header and payload carries. *)
Definition frame_checksum (typeValue length : Z) (payload : list Z) : Z :=
  xor_bytes payload (to_u8 (Z.lxor (Z.lxor START_BYTE typeValue) length)).

(** No poll of [receiveMessage] can accept: whatever number of bytes
    has been read so far, they do not decode to a frame of [type]. *)
Definition never_matches (type : MessageType) (stream : list Z) : Prop :=
  forall n receivedType payload,
    parseIOLinkMessage (firstn n (map to_u8 stream)) = Parsed receivedType payload ->
    MessageType_eqb receivedType type = false.

(** A complete frame by its own length byte that [receiveMessage]
    waiting for [type] does not accept: bad checksum, other type, or
    otherwise malformed. *)
Definition mismatched_frame (type : MessageType) (frame : list Z) : Prop :=
  Forall is_u8 frame /\
  Z.of_nat (length frame) = nth 2 frame 0 + 4 /\
  forall receivedType payload,
    parseIOLinkMessage frame = Parsed receivedType payload ->
    MessageType_eqb receivedType type = false.

(* ------------------------------------------------------------------ *)
(** ** Event dispatch *)

(** [EventCallback] is a
    [std::function<void(uint8_t, const std::vector<uint8_t>&)>]: what it
    does is a change of the application's state [A].  The slot
    [m_eventCallback] is [None] while it holds the empty function the
    constructor installs; it is passed to [processEvents] beside the
    serial port.  A callback is taken to act on the application only:
    one that itself used the serial port or waited is outside this
    type. *)
Definition EventCallback (A : Type) : Type := Z -> list Z -> A -> A.

Definition registerEventCallback {A : Type}
  (callback : option (EventCallback A))
  (m_eventCallback : option (EventCallback A)) : option (EventCallback A) :=
  callback.

Definition processEvents {A : Type}
  (m_eventCallback : option (EventCallback A)) (w : World) (app : A)
  : World * A :=
  if BytesAvailable w >? 0 then
    let rawData : list Z := [] in
    let (rawData', w1) := read_available rawData w in
    match parseIOLinkMessage rawData' with
    | Parsed receivedType payload =>
        if MessageType_eqb receivedType EVENT then
          match m_eventCallback with
          | Some callback =>
              let port := 0 in
              (w1, callback port payload app)
          | None => (w1, app)
          end
        else (w1, app)
    | ParseFailed _ => (w1, app)
    end
  else (w, app).

(** The bytes the transport has offered by the end of millisecond [j]
    counted from the state [w]. *)
Definition arrived (w : World) (j : nat) : list Z :=
  rx_fifo w ++ concat (firstn j (line w)).

(* ------------------------------------------------------------------ *)
(** ** Bytes and exclusive or *)

Lemma to_u8_id (x : Z) : is_u8 x -> to_u8 x = x.
Proof. unfold is_u8, to_u8. intros H. apply Z.mod_small. exact H. Qed.

Lemma to_u8_range (x : Z) : is_u8 (to_u8 x).
Proof. unfold is_u8, to_u8. apply Z.mod_pos_bound. lia. Qed.

Lemma log2_u8 (x : Z) : is_u8 x -> Z.log2 x < 8.
Proof.
  unfold is_u8. intros [H0 H1].
  destruct (Z.eq_dec x 0) as [->|Hx]; [reflexivity|].
  apply Z.log2_lt_pow2; lia.
Qed.

Lemma lxor_u8 (a b : Z) : is_u8 a -> is_u8 b -> is_u8 (Z.lxor a b).
Proof.
  intros Ha Hb.
  assert (0 <= Z.lxor a b) as H0
    by (apply Z.lxor_nonneg; unfold is_u8 in *; lia).
  split; [exact H0|].
  destruct (Z.eq_dec (Z.lxor a b) 0) as [->|Hx]; [lia|].
  change 256 with (2 ^ 8). apply Z.log2_lt_pow2; [lia|].
  pose proof (Z.log2_lxor a b (proj1 Ha) (proj1 Hb)).
  pose proof (log2_u8 a Ha). pose proof (log2_u8 b Hb). lia.
Qed.

Lemma xor8_u8 (a b : Z) : is_u8 a -> is_u8 b -> xor8 a b = Z.lxor a b.
Proof. intros Ha Hb. unfold xor8. apply to_u8_id, lxor_u8; assumption. Qed.

Lemma xor8_range (a b : Z) : is_u8 (xor8 a b).
Proof. apply to_u8_range. Qed.

Lemma xor_bytes_range (payload : list Z) (c : Z) :
  is_u8 c -> is_u8 (xor_bytes payload c).
Proof.
  unfold xor_bytes. revert c.
  induction payload as [|b rest IH]; intros c Hc; simpl; [exact Hc|].
  apply IH, xor8_range.
Qed.

(** On bytes the running checksum is the plain exclusive or of the
    start value with every payload byte. *)
Lemma xor_bytes_lxor (payload : list Z) (c : Z) :
  Forall is_u8 payload -> is_u8 c ->
  xor_bytes payload c = fold_left Z.lxor payload c.
Proof.
  unfold xor_bytes. intros Hp. revert c.
  induction Hp as [|b rest Hb _ IH]; intros c Hc; simpl; [reflexivity|].
  rewrite (xor8_u8 c b Hc Hb). apply IH, lxor_u8; assumption.
Qed.

Lemma frame_checksum_lxor (typeValue len : Z) (payload : list Z) :
  is_u8 typeValue -> is_u8 len -> Forall is_u8 payload ->
  frame_checksum typeValue len payload
  = fold_left Z.lxor payload (Z.lxor (Z.lxor START_BYTE typeValue) len).
Proof.
  intros Ht Hl Hp. unfold frame_checksum.
  assert (is_u8 START_BYTE) as Hs by (unfold is_u8, START_BYTE; lia).
  pose proof (lxor_u8 _ _ (lxor_u8 _ _ Hs Ht) Hl) as Hinit.
  rewrite (to_u8_id _ Hinit). apply xor_bytes_lxor; assumption.
Qed.

Lemma fold_lxor_shift (l : list Z) (c d : Z) :
  fold_left Z.lxor l (Z.lxor c d) = Z.lxor (fold_left Z.lxor l c) d.
Proof.
  revert c. induction l as [|b rest IH]; intros c; simpl; [reflexivity|].
  rewrite <- IH. f_equal.
  rewrite !Z.lxor_assoc. f_equal. apply Z.lxor_comm.
Qed.

Lemma lxor_cancel_neq (c d : Z) : d <> 0 -> Z.lxor c d <> c.
Proof.
  intros Hd Heq. apply Hd.
  assert (Z.lxor c (Z.lxor c d) = Z.lxor c c) as H by (rewrite Heq; reflexivity).
  rewrite <- Z.lxor_assoc, Z.lxor_nilpotent, Z.lxor_0_l in H. exact H.
Qed.

Lemma type_to_byte_u8 (type : MessageType) : is_u8 (type_to_byte type).
Proof. destruct type; unfold is_u8; simpl; lia. Qed.

Lemma byte_to_type_to_byte (type : MessageType) :
  byte_to_type (type_to_byte type) = Some type.
Proof. destruct type; reflexivity. Qed.

Lemma MessageType_eqb_eq (a b : MessageType) :
  MessageType_eqb a b = true <-> a = b.
Proof. destruct a, b; simpl; split; congruence. Qed.

(* ------------------------------------------------------------------ *)
(** ** The payload copy loop *)

Lemma skipn_nth_cons (k : nat) (l : list Z) (d : Z) :
  (k < length l)%nat -> skipn k l = nth k l d :: skipn (S k) l.
Proof.
  revert l. induction k as [|k IH]; intros [|x l] H; simpl in *;
    try lia; [reflexivity|].
  apply IH. lia.
Qed.

Lemma payload_loop_spec (rawData : list Z) (count : nat) :
  forall (i : Z) (payload : list Z),
    0 <= i ->
    (Z.to_nat (3 + i) + count <= length rawData)%nat ->
    payload_loop rawData count i payload =
    payload ++ firstn count (skipn (Z.to_nat (3 + i)) rawData).
Proof.
  induction count as [|count IH]; intros i payload Hi Hlen;
    cbn [payload_loop].
  - cbn [firstn]. rewrite app_nil_r. reflexivity.
  - rewrite IH by lia.
    rewrite (skipn_nth_cons (Z.to_nat (3 + i)) rawData 0) by lia.
    cbn [firstn]. rewrite <- app_assoc. cbn [app].
    replace (Z.to_nat (3 + (i + 1))) with (S (Z.to_nat (3 + i))) by lia.
    reflexivity.
Qed.

(** The two shapes [parseIOLinkMessage] can return on a buffer that
    starts with header [0xA5, typeValue, len], then [body], where
    [body] holds at least [len + 1] bytes. *)
Lemma parse_header_body (typeValue len : Z) (body : list Z) :
  0 <= len -> len + 1 <= Z.of_nat (length body) ->
  parseIOLinkMessage (START_BYTE :: typeValue :: len :: body) =
  match byte_to_type typeValue with
  | None => ParseFailed COMMUNICATION_ERROR
  | Some type =>
      let payload := firstn (Z.to_nat len) body in
      if nth (Z.to_nat len) body 0 =? frame_checksum typeValue len payload
      then Parsed type payload
      else ParseFailed COMMUNICATION_ERROR
  end.
Proof.
  intros Hlen Hbody. unfold parseIOLinkMessage.
  cbn [length nth].
  destruct (Z.ltb_spec (Z.of_nat (S (S (S (length body))))) 4); [lia|].
  rewrite Z.eqb_refl. cbn [negb].
  destruct (byte_to_type typeValue) as [type|]; [|reflexivity].
  destruct (Z.ltb_spec (Z.of_nat (S (S (S (length body))))) (len + 4)); [lia|].
  rewrite payload_loop_spec by (simpl; lia).
  replace (Z.to_nat (3 + 0)) with 3%nat by lia.
  replace (Z.to_nat (3 + len)) with (S (S (S (Z.to_nat len)))) by lia.
  cbn [skipn nth app]. unfold frame_checksum.
  destruct (nth (Z.to_nat len) body 0 =? _); reflexivity.
Qed.

Lemma parse_short (rawData : list Z) :
  Z.of_nat (length rawData) < nth 2 rawData 0 + 4 ->
  parseIOLinkMessage rawData = ParseFailed COMMUNICATION_ERROR.
Proof.
  intros H. unfold parseIOLinkMessage.
  destruct (Z.of_nat (length rawData) <? 4); [reflexivity|].
  destruct (negb (nth 0 rawData 0 =? START_BYTE)); [reflexivity|].
  destruct (byte_to_type (nth 1 rawData 0)); [|reflexivity].
  destruct (Z.ltb_spec (Z.of_nat (length rawData)) (nth 2 rawData 0 + 4));
    [reflexivity|lia].
Qed.

Lemma build_shape (type : MessageType) (payload : list Z) :
  buildIOLinkMessage type payload =
  START_BYTE :: type_to_byte type :: to_u8 (Z.of_nat (length payload)) ::
  payload ++
  [frame_checksum (type_to_byte type) (to_u8 (Z.of_nat (length payload)))
     payload].
Proof. unfold buildIOLinkMessage, frame_checksum. cbn [app]. reflexivity. Qed.

Lemma firstn_length_app (payload tail : list Z) :
  firstn (length payload) (payload ++ tail) = payload.
Proof.
  rewrite firstn_app, Nat.sub_diag, firstn_all. cbn [firstn].
  apply app_nil_r.
Qed.

Lemma parse_build (type : MessageType) (payload : list Z) :
  (length payload <= 255)%nat ->
  parseIOLinkMessage (buildIOLinkMessage type payload) = Parsed type payload.
Proof.
  intros Hlen. rewrite build_shape.
  assert (to_u8 (Z.of_nat (length payload)) = Z.of_nat (length payload))
    as -> by (apply to_u8_id; unfold is_u8; lia).
  rewrite parse_header_body by (rewrite ?length_app; simpl; lia).
  rewrite byte_to_type_to_byte. cbv zeta.
  rewrite Nat2Z.id, firstn_length_app, nth_middle, Z.eqb_refl.
  reflexivity.
Qed.

(* ------------------------------------------------------------------ *)
(** ** Frame codec: round trip and over-long payloads *)

(** C1. For each of the four message types and every payload of at
    most 255 bytes, [parseIOLinkMessage] applied to the output of
    [buildIOLinkMessage] succeeds with the same type and payload.  In
    particular ProcessData with payload 12 34 (hex) is encoded as
    A5 01 02 12 34 followed by the exclusive or of those five bytes,
    and these six bytes decode to ProcessData with payload 12 34. *)
Theorem codec_roundtrip :
  (forall (type : MessageType) (payload : list Z),
      Forall is_u8 payload -> (length payload <= 255)%nat ->
      parseIOLinkMessage (buildIOLinkMessage type payload)
      = Parsed type payload) /\
  buildIOLinkMessage PROCESS_DATA [0x12; 0x34] =
    [0xA5; 0x01; 0x02; 0x12; 0x34;
     Z.lxor (Z.lxor (Z.lxor (Z.lxor 0xA5 0x01) 0x02) 0x12) 0x34] /\
  parseIOLinkMessage
    [0xA5; 0x01; 0x02; 0x12; 0x34;
     Z.lxor (Z.lxor (Z.lxor (Z.lxor 0xA5 0x01) 0x02) 0x12) 0x34]
  = Parsed PROCESS_DATA [0x12; 0x34].
Proof.
  split; [|split].
  - intros type payload _ Hlen. apply parse_build, Hlen.
  - reflexivity.
  - reflexivity.
Qed.

Lemma codec_roundtrip_witness :
  parseIOLinkMessage (buildIOLinkMessage EVENT [0x00; 0xFF; 0xA5])
  = Parsed EVENT [0x00; 0xFF; 0xA5].
Proof.
  apply (proj1 codec_roundtrip).
  - repeat constructor; unfold is_u8; lia.
  - simpl; lia.
Defined.

(** C10. A payload of more than 255 bytes is neither rejected nor
    shortened by [buildIOLinkMessage]: the frame is the start byte A5,
    the type byte, the payload length modulo 256, every payload byte,
    and as checksum the exclusive or of A5, the type byte, that reduced
    length byte and all payload bytes; decoding the frame does not give
    back the type and payload it was built from. *)
Theorem build_overlong_payload (type : MessageType) (payload : list Z) :
  Forall is_u8 payload -> (255 < length payload)%nat ->
  buildIOLinkMessage type payload =
    [0xA5; type_to_byte type; Z.of_nat (length payload) mod 256]
    ++ payload
    ++ [fold_left Z.lxor payload
          (Z.lxor (Z.lxor 0xA5 (type_to_byte type))
             (Z.of_nat (length payload) mod 256))] /\
  length (buildIOLinkMessage type payload) = (length payload + 4)%nat /\
  parseIOLinkMessage (buildIOLinkMessage type payload)
  <> Parsed type payload.
Proof.
  intros Hp Hlen. split; [|split].
  - rewrite build_shape.
    rewrite frame_checksum_lxor
      by (try apply type_to_byte_u8; try apply to_u8_range; exact Hp).
    reflexivity.
  - rewrite build_shape. cbn [length]. rewrite length_app. simpl. lia.
  - rewrite build_shape.
    pose proof (to_u8_range (Z.of_nat (length payload))) as Hr.
    set (len := to_u8 (Z.of_nat (length payload))) in *.
    unfold is_u8 in Hr.
    rewrite parse_header_body by (rewrite ?length_app; simpl; lia).
    rewrite byte_to_type_to_byte. cbv zeta.
    destruct (_ =? _); [|discriminate].
    intros [= Heq].
    apply (f_equal (@length Z)) in Heq.
    rewrite length_firstn in Heq. lia.
Qed.

Lemma build_overlong_payload_witness :
  buildIOLinkMessage PARAMETER (repeat 0x07 257)
  = [0xA5; 0x02; 0x01] ++ repeat 0x07 257 ++ [0xA1] /\
  length (buildIOLinkMessage PARAMETER (repeat 0x07 257)) = 261%nat /\
  parseIOLinkMessage (buildIOLinkMessage PARAMETER (repeat 0x07 257))
  <> Parsed PARAMETER (repeat 0x07 257).
Proof.
  destruct (build_overlong_payload PARAMETER (repeat 0x07 257))
    as (Hframe & Hlength & Hdecode).
  - apply Forall_forall. intros x Hx. apply repeat_spec in Hx. subst x.
    unfold is_u8. lia.
  - rewrite repeat_length. lia.
  - split; [|split]; [rewrite Hframe; reflexivity|exact Hlength|exact Hdecode].
Defined.

(* ------------------------------------------------------------------ *)
(** ** The base device *)

(** C9. A base [IOLinkDevice] supports COM2 and no other operation
    mode, has a minimum cycle time of 2, and answers NotSupported to
    [readProcessData], [writeProcessData], [readParameter],
    [writeParameter] and [readDiagnostic] whatever the arguments. *)
Theorem base_device_defaults (d : IOLinkDevice.t) :
  IOLinkDevice.supportsOperationMode d COM2 = true /\
  IOLinkDevice.supportsOperationMode d SIO = false /\
  IOLinkDevice.supportsOperationMode d COM1 = false /\
  IOLinkDevice.supportsOperationMode d COM3 = false /\
  IOLinkDevice.getMinCycleTime d = 2 /\
  (forall data, fst (IOLinkDevice.readProcessData d data) = NOT_SUPPORTED) /\
  (forall data, IOLinkDevice.writeProcessData d data = NOT_SUPPORTED) /\
  (forall index subindex data,
      fst (IOLinkDevice.readParameter d index subindex data)
      = NOT_SUPPORTED) /\
  (forall index subindex data,
      IOLinkDevice.writeParameter d index subindex data = NOT_SUPPORTED) /\
  (forall data, fst (IOLinkDevice.readDiagnostic d data) = NOT_SUPPORTED).
Proof.
  repeat split; reflexivity.
Qed.

(* ------------------------------------------------------------------ *)
(** ** Port index validation *)

(** C5. With a port index that is not below the number of ports the
    master holds, [activatePort], [deactivatePort], [sendMessage] and
    [receiveMessage] all return InvalidParameter, and the serial
    channel and clock are exactly as before: nothing was sent, nothing
    was read. *)
Theorem port_bounds (port : Z) (m : IOLinkMaster) (w : World) :
  is_u8 port -> size m <= port ->
  (forall mode, activatePort port mode m w = (INVALID_PARAMETER, m, w)) /\
  deactivatePort port m w = (INVALID_PARAMETER, m, w) /\
  (forall type data,
      sendMessage port type data m w = (INVALID_PARAMETER, m, w)) /\
  (forall fuel type data timeout,
      receiveMessage fuel port type data timeout m w
      = Some (INVALID_PARAMETER, data, m, w)).
Proof.
  intros _ Hport.
  unfold activatePort, deactivatePort, sendMessage, receiveMessage.
  destruct (Z.geb_spec port (size m)) as [_|Hlt]; [|lia].
  repeat split; reflexivity.
Qed.

Lemma port_bounds_witness :
  sendMessage 1 PARAMETER [0x10; 0x20] (mkMaster [Some dummyDevice])
    (mkWorld 0 [0xA5] [] [])
  = (INVALID_PARAMETER, mkMaster [Some dummyDevice], mkWorld 0 [0xA5] [] []).
Proof.
  apply (port_bounds 1 (mkMaster [Some dummyDevice]) (mkWorld 0 [0xA5] [] [])).
  - unfold is_u8; lia.
  - vm_compute; discriminate.
Defined.

(* ------------------------------------------------------------------ *)
(** ** Scan, activation, deactivation *)

(** C3 (the code departs from it). Whatever the registry held and
    whatever the transport does, [scanForDevices] touches neither the
    serial channel nor the clock, so no wake-up or identification is
    attempted, and it leaves exactly one device in the registry, the
    fixed dummy with id 1, vendor 12345678 and product 87654321 (hex):
    [getDevice 0] returns it although no device answered. *)
Theorem scan_registers_dummy (m : IOLinkMaster) (w : World) :
  scanForDevices m w = (NONE, mkMaster [Some dummyDevice], w) /\
  getDevice 0 (mkMaster [Some dummyDevice])
  = Some (IOLinkDevice.make 1 0x12345678 0x87654321).
Proof. split; reflexivity. Qed.

(** C4 (the code departs from it). Whatever the line does, activating
    port 0 of a master that has scanned sends ten zero bytes and
    returns None (success) at once: the clock has not moved, nothing
    was read, no response was waited for, and [getDevice 0] still
    returns the dummy device.  Before any scan the registry is empty,
    port 0 is out of range, and the same call returns InvalidParameter
    without sending the wake-up pattern. *)
Theorem activate_silent_port (mode : OperationMode) (w : World) :
  let scanned := mkMaster [Some dummyDevice] in
  activatePort 0 mode scanned w
  = (NONE, scanned,
     mkWorld (clock w) (rx_fifo w) (line w)
       (tx_log w ++ [0; 0; 0; 0; 0; 0; 0; 0; 0; 0])) /\
  getDevice 0 scanned = Some dummyDevice /\
  activatePort 0 mode (mkMaster []) w = (INVALID_PARAMETER, mkMaster [], w).
Proof.
  cbv zeta. split; [|split; reflexivity].
  unfold activatePort. cbn [size m_devices length Z.of_nat Z.geb Z.compare].
  cbn [wakeup_loop]. unfold SendChar. cbn [clock rx_fifo line tx_log].
  repeat rewrite <- app_assoc. reflexivity.
Qed.

(** After a scan, deactivating port 0 returns None but [getDevice 0]
    still returns the device. *)
Lemma deactivate_keeps_device :
  let scanned := mkMaster [Some dummyDevice] in
  let silent := mkWorld 0 [] [] [] in
  deactivatePort 0 scanned silent = (NONE, scanned, silent) /\
  getDevice 0 scanned = Some dummyDevice /\
  getDevice 0 scanned <> None.
Proof. repeat split; try reflexivity. discriminate. Qed.

(** C8 (the code departs from it). For every in-range port index,
    [deactivatePort] returns None and does nothing else: no byte is
    sent or read, no port is marked inactive and no registry entry is
    removed, so [getDevice] on that port returns after the call what it
    returned before it; a device that was there is still there. *)
Theorem deactivate_in_range (port : Z) (m : IOLinkMaster) (w : World) :
  0 <= port < size m ->
  deactivatePort port m w = (NONE, m, w) /\
  getDevice port (snd (fst (deactivatePort port m w))) = getDevice port m.
Proof.
  intros Hport. unfold deactivatePort.
  destruct (Z.geb_spec port (size m)) as [Hge|_]; [lia|].
  split; reflexivity.
Qed.

Lemma deactivate_in_range_witness :
  deactivatePort 0 (mkMaster [Some dummyDevice]) (mkWorld 5 [1] [[2]] [3])
  = (NONE, mkMaster [Some dummyDevice], mkWorld 5 [1] [[2]] [3]).
Proof.
  apply (deactivate_in_range 0 (mkMaster [Some dummyDevice])
           (mkWorld 5 [1] [[2]] [3])).
  vm_compute. split; [discriminate|reflexivity].
Defined.

(* ------------------------------------------------------------------ *)
(** ** Single bit flips in an encoded frame *)

Lemma shiftl_1_pos (k : Z) : 0 <= k -> 0 < Z.shiftl 1 k.
Proof.
  intros Hk. rewrite Z.shiftl_1_l. apply Z.pow_pos_nonneg; lia.
Qed.

Lemma shiftl_1_u8 (k : Z) : 0 <= k < 8 -> is_u8 (Z.shiftl 1 k).
Proof.
  intros Hk. unfold is_u8. rewrite Z.shiftl_1_l. split.
  - apply Z.pow_nonneg; lia.
  - change 256 with (2 ^ 8). apply Z.pow_lt_mono_r; lia.
Qed.

Lemma flip_bit_neq (b k : Z) : 0 <= k -> flip_bit b k <> b.
Proof.
  intros Hk. apply lxor_cancel_neq.
  pose proof (shiftl_1_pos k Hk). lia.
Qed.

Lemma flip_bit_u8 (b k : Z) : is_u8 b -> 0 <= k < 8 -> is_u8 (flip_bit b k).
Proof. intros Hb Hk. apply lxor_u8; [exact Hb|apply shiftl_1_u8, Hk]. Qed.

Lemma flip_at_app (i : nat) (k : Z) (l tail : list Z) :
  (i < length l)%nat -> flip_at i k (l ++ tail) = flip_at i k l ++ tail.
Proof.
  revert i. induction l as [|b rest IH]; intros i Hi; simpl in Hi; [lia|].
  destruct i as [|i]; cbn [flip_at app]; [reflexivity|].
  rewrite IH by lia. reflexivity.
Qed.

Lemma flip_at_length (i : nat) (k : Z) (l : list Z) :
  length (flip_at i k l) = length l.
Proof.
  revert i. induction l as [|b rest IH]; intros [|i]; cbn [flip_at length];
    try reflexivity.
  rewrite IH. reflexivity.
Qed.

Lemma flip_at_u8 (i : nat) (k : Z) (l : list Z) :
  0 <= k < 8 -> Forall is_u8 l -> Forall is_u8 (flip_at i k l).
Proof.
  intros Hk Hl. revert i.
  induction Hl as [|b rest Hb Hrest IH]; intros [|i]; cbn [flip_at];
    constructor; auto using flip_bit_u8.
Qed.

Lemma fold_lxor_flip_at (i : nat) (k : Z) (l : list Z) :
  forall c, (i < length l)%nat ->
  fold_left Z.lxor (flip_at i k l) c
  = Z.lxor (fold_left Z.lxor l c) (Z.shiftl 1 k).
Proof.
  revert i. induction l as [|b rest IH]; intros i c Hi; simpl in Hi; [lia|].
  destruct i as [|i]; cbn [flip_at fold_left].
  - unfold flip_bit. rewrite <- Z.lxor_assoc. apply fold_lxor_shift.
  - apply IH. lia.
Qed.

Lemma lxor_swap (a b c d : Z) :
  Z.lxor (Z.lxor a (Z.lxor b d)) c = Z.lxor (Z.lxor (Z.lxor a b) c) d.
Proof.
  rewrite <- (Z.lxor_assoc a b d).
  rewrite (Z.lxor_assoc (Z.lxor a b) d c), (Z.lxor_comm d c).
  rewrite <- Z.lxor_assoc. reflexivity.
Qed.

Lemma parse_bad_start (rawData : list Z) :
  nth 0 rawData 0 <> START_BYTE ->
  parseIOLinkMessage rawData = ParseFailed COMMUNICATION_ERROR.
Proof.
  intros H. unfold parseIOLinkMessage.
  destruct (Z.of_nat (length rawData) <? 4); [reflexivity|].
  destruct (Z.eqb_spec (nth 0 rawData 0) START_BYTE); [contradiction|].
  reflexivity.
Qed.

(** A frame whose type byte had one bit inverted never passes the
    checksum, even when the new type byte is a valid one. *)
Lemma checksum_rejects_type_flip (typeValue len k : Z) (payload : list Z) :
  is_u8 typeValue -> is_u8 len -> Forall is_u8 payload -> 0 <= k < 8 ->
  frame_checksum typeValue len payload
  <> frame_checksum (flip_bit typeValue k) len payload.
Proof.
  intros Ht Hl Hp Hk.
  rewrite !frame_checksum_lxor by auto using flip_bit_u8.
  unfold flip_bit. rewrite lxor_swap.
  rewrite (fold_lxor_shift payload
             (Z.lxor (Z.lxor START_BYTE typeValue) len) (Z.shiftl 1 k)).
  intros Heq. symmetry in Heq. revert Heq.
  apply lxor_cancel_neq. pose proof (shiftl_1_pos k (proj1 Hk)). lia.
Qed.

(** Nor does a frame with one payload bit inverted. *)
Lemma checksum_rejects_payload_flip (typeValue len k : Z) (i : nat)
  (payload : list Z) :
  is_u8 typeValue -> is_u8 len -> Forall is_u8 payload -> 0 <= k < 8 ->
  (i < length payload)%nat ->
  frame_checksum typeValue len payload
  <> frame_checksum typeValue len (flip_at i k payload).
Proof.
  intros Ht Hl Hp Hk Hi.
  rewrite !frame_checksum_lxor by auto using flip_at_u8.
  rewrite fold_lxor_flip_at by exact Hi.
  intros Heq. symmetry in Heq. revert Heq.
  apply lxor_cancel_neq. pose proof (shiftl_1_pos k (proj1 Hk)). lia.
Qed.

(** C2, counterexample. ProcessData with the one payload byte A4 (hex)
    is encoded as A5 01 01 A4 01.  Inverting bit 0 of the length byte
    gives A5 01 00 A4 01, which decodes successfully to ProcessData
    with an empty payload: the byte A4 now sits where the checksum of
    an empty frame, A5 xor 01 xor 00, is expected. *)
Lemma length_flip_counterexample :
  Forall is_u8 [0xA4] /\
  buildIOLinkMessage PROCESS_DATA [0xA4] = [0xA5; 0x01; 0x01; 0xA4; 0x01] /\
  flip_at 2 0 (buildIOLinkMessage PROCESS_DATA [0xA4])
  = [0xA5; 0x01; 0x00; 0xA4; 0x01] /\
  parseIOLinkMessage (flip_at 2 0 (buildIOLinkMessage PROCESS_DATA [0xA4]))
  = Parsed PROCESS_DATA [] /\
  parseIOLinkMessage (flip_at 2 0 (buildIOLinkMessage PROCESS_DATA [0xA4]))
  <> ParseFailed COMMUNICATION_ERROR.
Proof.
  repeat split; try reflexivity.
  - repeat constructor; unfold is_u8; lia.
  - discriminate.
Qed.

Lemma firstn_exact (n : nat) (l tail : list Z) :
  length l = n -> firstn n (l ++ tail) = l.
Proof. intros <-. apply firstn_length_app. Qed.

Lemma nth_exact (n : nat) (l : list Z) (a d : Z) :
  length l = n -> nth n (l ++ [a]) d = a.
Proof. intros <-. apply nth_middle. Qed.

(** C2, amended. Take a frame encoded from a type and a payload of at
    most 255 bytes, and invert one bit of its start byte, type byte,
    length byte or of a payload byte.  Decoding then fails with
    CommunicationError, with one exception: when the bit is in the
    length byte, the new length L' is smaller than the payload length,
    and payload byte number L' equals the checksum of the frame cut to
    L' payload bytes, decoding succeeds with the same type and the
    first L' payload bytes. *)
Theorem checksum_sensitivity (type : MessageType) (payload : list Z)
  (i : nat) (k : Z) :
  Forall is_u8 payload -> (length payload <= 255)%nat ->
  (i < 3 + length payload)%nat -> 0 <= k < 8 ->
  parseIOLinkMessage (flip_at i k (buildIOLinkMessage type payload)) =
  let len' := flip_bit (Z.of_nat (length payload)) k in
  let cut := firstn (Z.to_nat len') payload in
  if (i =? 2)%nat && (len' <? Z.of_nat (length payload)) &&
     (nth (Z.to_nat len') payload 0
      =? frame_checksum (type_to_byte type) len' cut)
  then Parsed type cut
  else ParseFailed COMMUNICATION_ERROR.
Proof.
  intros Hp Hlen Hi Hk. cbv zeta. rewrite build_shape.
  assert (is_u8 (Z.of_nat (length payload))) as Hl by (unfold is_u8; lia).
  rewrite (to_u8_id _ Hl).
  pose proof (type_to_byte_u8 type) as Ht.
  destruct i as [|[|[|j]]]; cbn [flip_at Nat.eqb andb].
  - (* start byte *)
    apply parse_bad_start. cbn [nth]. apply flip_bit_neq. lia.
  - (* type byte *)
    rewrite parse_header_body by (rewrite ?length_app; simpl; lia).
    destruct (byte_to_type (flip_bit (type_to_byte type) k)) as [type'|];
      [|reflexivity].
    cbv zeta.
    rewrite firstn_exact, nth_exact by (symmetry; apply Nat2Z.id).
    destruct (Z.eqb_spec
                (frame_checksum (type_to_byte type)
                   (Z.of_nat (length payload)) payload)
                (frame_checksum (flip_bit (type_to_byte type) k)
                   (Z.of_nat (length payload)) payload)) as [Heq|_];
      [|reflexivity].
    exfalso. revert Heq. apply checksum_rejects_type_flip; assumption.
  - (* length byte *)
    pose proof (flip_bit_u8 _ k Hl Hk) as Hl'.
    pose proof (flip_bit_neq (Z.of_nat (length payload)) k (proj1 Hk)) as Hne.
    set (len' := flip_bit (Z.of_nat (length payload)) k) in *.
    unfold is_u8 in Hl'.
    destruct (Z.ltb_spec len' (Z.of_nat (length payload))) as [Hlt|Hge];
      cbn [andb].
    + rewrite parse_header_body by (rewrite ?length_app; simpl; lia).
      rewrite byte_to_type_to_byte. cbv zeta.
      rewrite firstn_app.
      replace (Z.to_nat len' - length payload)%nat with 0%nat by lia.
      cbn [firstn]. rewrite app_nil_r.
      rewrite app_nth1 by lia.
      destruct (_ =? _); reflexivity.
    + apply parse_short. cbn [length nth]. rewrite length_app. simpl. lia.
  - (* payload byte j *)
    rewrite flip_at_app by lia.
    rewrite parse_header_body
      by (rewrite ?length_app, ?flip_at_length; simpl; lia).
    rewrite byte_to_type_to_byte. cbv zeta.
    rewrite firstn_exact, nth_exact
      by (rewrite flip_at_length; symmetry; apply Nat2Z.id).
    destruct (Z.eqb_spec
                (frame_checksum (type_to_byte type)
                   (Z.of_nat (length payload)) payload)
                (frame_checksum (type_to_byte type)
                   (Z.of_nat (length payload)) (flip_at j k payload)))
      as [Heq|_]; [|reflexivity].
    exfalso. revert Heq. apply checksum_rejects_payload_flip; auto. lia.
Qed.

Lemma checksum_sensitivity_witness :
  parseIOLinkMessage (flip_at 4 7 (buildIOLinkMessage DIAGNOSTIC [0x10; 0x20]))
  = ParseFailed COMMUNICATION_ERROR.
Proof.
  apply (checksum_sensitivity DIAGNOSTIC [0x10; 0x20] 4 7).
  - repeat constructor; unfold is_u8; lia.
  - simpl; lia.
  - simpl; lia.
  - lia.
Defined.

(* ------------------------------------------------------------------ *)
(** ** The platform primitives *)

Lemma map_to_u8_id (l : list Z) : Forall is_u8 l -> map to_u8 l = l.
Proof.
  induction 1 as [|b rest Hb _ IH]; simpl; [reflexivity|].
  rewrite (to_u8_id b Hb), IH. reflexivity.
Qed.

Lemma read_loop_spec (rx : list Z) :
  forall (rawData : list Z) (c : Z) (l : list (list Z)) (t : list Z),
    read_loop (length rx) rawData (mkWorld c rx l t)
    = (rawData ++ map to_u8 rx, mkWorld c [] l t).
Proof.
  induction rx as [|b rest IH]; intros rawData c l t.
  - simpl. rewrite app_nil_r. reflexivity.
  - cbn [length read_loop]. unfold BytesAvailable, ReadChar.
    cbn [rx_fifo clock line tx_log length].
    destruct (Z.gtb_spec (Z.of_nat (S (length rest))) 0) as [_|H]; [|lia].
    rewrite IH. cbn [map]. rewrite <- app_assoc. reflexivity.
Qed.

Lemma read_available_spec (rawData : list Z) (w : World) :
  read_available rawData w
  = (rawData ++ map to_u8 (rx_fifo w),
     mkWorld (clock w) [] (line w) (tx_log w)).
Proof. destruct w as [c rx l t]. apply read_loop_spec. Qed.

Lemma delay_1 (w : World) : delay 1 w = tick w.
Proof. reflexivity. Qed.

Lemma incoming_tick (w : World) : incoming (tick w) = incoming w.
Proof.
  destruct w as [c rx [|chunk l] t]; unfold incoming, tick; simpl.
  - rewrite app_nil_r. reflexivity.
  - rewrite <- app_assoc. reflexivity.
Qed.

Lemma elapsed_u32 (w : World) (c0 : Z) :
  sub32 (Milliseconds w) (to_u32 c0) = (clock w - c0) mod 4294967296.
Proof.
  unfold sub32, Milliseconds, to_u32. symmetry. apply Zminus_mod.
Qed.

(* ------------------------------------------------------------------ *)
(** ** The decoder reads one frame from the front of its buffer *)

Lemma parse_ok_length (rawData : list Z) (type : MessageType)
  (payload : list Z) :
  parseIOLinkMessage rawData = Parsed type payload ->
  4 <= Z.of_nat (length rawData) /\
  nth 2 rawData 0 + 4 <= Z.of_nat (length rawData).
Proof.
  unfold parseIOLinkMessage.
  destruct (Z.ltb_spec (Z.of_nat (length rawData)) 4); [discriminate|].
  destruct (negb (nth 0 rawData 0 =? START_BYTE)); [discriminate|].
  destruct (byte_to_type (nth 1 rawData 0)); [|discriminate].
  destruct (Z.ltb_spec (Z.of_nat (length rawData)) (nth 2 rawData 0 + 4));
    [discriminate|].
  intros _. lia.
Qed.

(** Bytes that follow a complete frame do not change what is decoded. *)
Lemma parse_app_complete (frame more : list Z) :
  0 <= nth 2 frame 0 ->
  nth 2 frame 0 + 4 <= Z.of_nat (length frame) ->
  parseIOLinkMessage (frame ++ more) = parseIOLinkMessage frame.
Proof.
  intros H0 Hlen.
  destruct frame as [|a [|tv [|len body]]]; cbn [length nth] in *; try lia.
  destruct (Z.eq_dec a START_BYTE) as [->|Ha].
  - cbn [app].
    rewrite !parse_header_body by (rewrite ?length_app; lia).
    destruct (byte_to_type tv); [|reflexivity]. cbv zeta.
    rewrite firstn_app.
    replace (Z.to_nat len - length body)%nat with 0%nat by lia.
    cbn [firstn]. rewrite app_nil_r, app_nth1 by lia. reflexivity.
  - rewrite !parse_bad_start by (cbn [app nth]; exact Ha). reflexivity.
Qed.

(** Once a complete frame that [receiveMessage] does not accept is at
    the front of the stream, no prefix of the stream is accepted. *)
Lemma mismatched_never_matches (type : MessageType) (bad rest : list Z) :
  mismatched_frame type bad -> never_matches type (bad ++ rest).
Proof.
  intros (Hbytes & Hlen & Hbad) n receivedType payload Hparse.
  rewrite map_app, (map_to_u8_id bad Hbytes) in Hparse.
  assert (0 <= nth 2 bad 0) as H0.
  { destruct bad as [|a [|b [|c body]]]; cbn [nth]; try lia.
    inversion Hbytes as [|? ? _ H1]. inversion H1 as [|? ? _ H2].
    inversion H2 as [|? ? Hc _]. unfold is_u8 in Hc. lia. }
  destruct (Nat.le_gt_cases (length bad) n) as [Hge|Hlt].
  - rewrite firstn_app, firstn_all2 in Hparse by exact Hge.
    rewrite parse_app_complete in Hparse by lia.
    apply (Hbad _ _ Hparse).
  - rewrite firstn_app in Hparse.
    replace (n - length bad)%nat with 0%nat in Hparse by lia.
    cbn [firstn] in Hparse. rewrite app_nil_r in Hparse.
    apply parse_ok_length in Hparse.
    rewrite length_firstn, nth_firstn in Hparse.
    destruct (Nat.ltb_spec 2 n); lia.
Qed.

(* ------------------------------------------------------------------ *)
(** ** The polling loop of [receiveMessage] *)

Section ReceiveLoop.

Variable type : MessageType.
Variable data : list Z.
Variable timeout : Z.
Variable c0 : Z.           (* the clock when [receiveMessage] was entered *)

(** Whenever the loop gives up, at least [timeout] milliseconds have
    passed since it was entered, whatever arrived meanwhile. *)
Lemma receive_loop_floor (fuel : nat) :
  forall (rawData : list Z) (w : World) (d : list Z) (w' : World),
    0 <= clock w - c0 ->
    receive_loop fuel type data timeout (to_u32 c0) rawData w
    = Some (TIMEOUT, d, w') ->
    timeout <= clock w' - c0.
Proof.
  induction fuel as [|fuel IH]; intros rawData w d w' Hclock;
    cbn [receive_loop]; [discriminate|].
  rewrite elapsed_u32.
  destruct (Z.ltb_spec ((clock w - c0) mod 4294967296) timeout) as [_|Hge].
  - destruct (BytesAvailable w >? 0).
    + rewrite read_available_spec, delay_1.
      destruct (parseIOLinkMessage _) as [receivedType payload|e].
      * destruct (MessageType_eqb receivedType type); [discriminate|].
        apply IH. cbn [tick clock]. lia.
      * apply IH. cbn [tick clock]. lia.
    + rewrite delay_1. apply IH. cbn [tick clock]. lia.
  - intros [= _ <-].
    pose proof (Zmod_le (clock w - c0) 4294967296 ltac:(lia) Hclock). lia.
Qed.

Variable stream : list Z.  (* everything read so far and still to come *)

Hypothesis timeout_u32 : timeout < 4294967296.

Hypothesis no_prefix_accepted :
  forall n receivedType payload,
    parseIOLinkMessage (firstn n stream) = Parsed receivedType payload ->
    MessageType_eqb receivedType type = false.

(** With [n] milliseconds of the budget left and enough fuel, the loop
    runs exactly [n] more rounds and gives up. *)
Lemma receive_loop_times_out (n : nat) :
  forall (fuel : nat) (rawData : list Z) (w : World),
    rawData ++ map to_u8 (incoming w) = stream ->
    0 <= clock w - c0 ->
    clock w - c0 + Z.of_nat n = timeout ->
    (n < fuel)%nat ->
    exists w',
      receive_loop fuel type data timeout (to_u32 c0) rawData w
      = Some (TIMEOUT, data, w') /\
      clock w' = c0 + timeout /\ tx_log w' = tx_log w.
Proof.
  induction n as [|n IH]; intros fuel rawData w Hstream Hclock Hleft Hfuel;
    (destruct fuel as [|fuel]; [lia|]); cbn [receive_loop];
    rewrite elapsed_u32, Z.mod_small by lia.
  - destruct (Z.ltb_spec (clock w - c0) timeout); [lia|].
    exists w. repeat split. lia.
  - destruct (Z.ltb_spec (clock w - c0) timeout); [|lia].
    destruct (BytesAvailable w >? 0).
    + rewrite read_available_spec, delay_1.
      set (rawData' := rawData ++ map to_u8 (rx_fifo w)).
      set (w1 := mkWorld (clock w) [] (line w) (tx_log w)).
      assert (rawData' ++ map to_u8 (incoming (tick w1)) = stream) as Hstream'.
      { rewrite incoming_tick. unfold rawData', incoming, w1. cbn [rx_fifo line app].
        rewrite <- Hstream. unfold incoming.
        rewrite map_app, app_assoc. reflexivity. }
      assert (exists w',
                 receive_loop fuel type data timeout (to_u32 c0) rawData'
                   (tick w1) = Some (TIMEOUT, data, w') /\
                 clock w' = c0 + timeout /\ tx_log w' = tx_log w) as Hrec.
      { destruct (IH fuel rawData' (tick w1)) as (w' & Hrun & Hc & Ht);
          unfold w1; cbn [tick clock]; try lia; [exact Hstream'|].
        exists w'. repeat split; assumption. }
      destruct (parseIOLinkMessage rawData') as [receivedType payload|e] eqn:E;
        [|exact Hrec].
      assert (MessageType_eqb receivedType type = false) as ->; [|exact Hrec].
      apply (no_prefix_accepted (length rawData') receivedType payload).
      rewrite <- Hstream', firstn_length_app. exact E.
    + rewrite delay_1.
      destruct (IH fuel rawData (tick w)) as (w' & Hrun & Hc & Ht);
        cbn [tick clock]; try lia.
      * rewrite incoming_tick. exact Hstream.
      * exists w'. repeat split; assumption.
Qed.

End ReceiveLoop.

(** On a valid port, when no prefix of the incoming bytes decodes to a
    frame of the expected type, [receiveMessage] returns Timeout after
    exactly [timeout] milliseconds, for every sufficient fuel. *)
Lemma receiveMessage_times_out (fuel : nat) (port : Z) (type : MessageType)
  (data : list Z) (timeout : Z) (m : IOLinkMaster) (w : World) :
  0 <= port < size m -> is_u32 timeout ->
  never_matches type (incoming w) ->
  (Z.to_nat timeout < fuel)%nat ->
  exists w',
    receiveMessage fuel port type data timeout m w
    = Some (TIMEOUT, data, m, w') /\
    clock w' - clock w = timeout /\ tx_log w' = tx_log w.
Proof.
  intros Hport Ht Hnever Hfuel. unfold receiveMessage, is_u32 in *.
  destruct (Z.geb_spec port (size m)) as [Hge|_]; [lia|].
  destruct (receive_loop_times_out type data timeout (clock w)
              (map to_u8 (incoming w)) (proj2 Ht) Hnever
              (Z.to_nat timeout) fuel [] w)
    as (w' & Hrun & Hc & Htx); try reflexivity; try lia.
  exists w'. unfold Milliseconds. rewrite Hrun.
  repeat split; [lia|exact Htx].
Qed.

Lemma receiveMessage_floor (fuel : nat) (port : Z) (type : MessageType)
  (data data' : list Z) (timeout : Z) (m m' : IOLinkMaster) (w w' : World) :
  receiveMessage fuel port type data timeout m w
  = Some (TIMEOUT, data', m', w') ->
  timeout <= clock w' - clock w.
Proof.
  unfold receiveMessage.
  destruct (port >=? size m); [discriminate|].
  destruct (receive_loop fuel type data timeout (Milliseconds w) [] w)
    as [[[e d] w1]|] eqn:Hrun; [|discriminate].
  intros [= -> _ _ <-].
  apply (receive_loop_floor type data timeout (clock w) fuel [] w d w1);
    [lia|exact Hrun].
Qed.

(** C6. On a valid port, with any timeout T, when no frame of the
    expected type is ever decoded from what arrives, [receiveMessage]
    returns Timeout (given enough fuel for its T polling rounds), and
    the clock then reads T milliseconds more than at the call; and no
    run of [receiveMessage] returns Timeout with less than T
    milliseconds elapsed. *)
Theorem receive_timeout_floor (fuel : nat) (port : Z) (type : MessageType)
  (data : list Z) (timeout : Z) (m : IOLinkMaster) (w : World) :
  0 <= port < size m -> is_u32 timeout ->
  never_matches type (incoming w) ->
  (Z.to_nat timeout < fuel)%nat ->
  (exists w',
      receiveMessage fuel port type data timeout m w
      = Some (TIMEOUT, data, m, w') /\
      clock w' - clock w = timeout) /\
  (forall fuel' data' m' w',
      receiveMessage fuel' port type data timeout m w
      = Some (TIMEOUT, data', m', w') ->
      timeout <= clock w' - clock w).
Proof.
  intros Hport Ht Hnever Hfuel. split.
  - destruct (receiveMessage_times_out fuel port type data timeout m w)
      as (w' & Hrun & Hc & _); try assumption.
    exists w'. split; assumption.
  - intros fuel' data' m' w'. apply receiveMessage_floor.
Qed.

Lemma receive_timeout_floor_witness :
  exists w',
    receiveMessage 4 0 DIAGNOSTIC [0x09] 3 (mkMaster [Some dummyDevice])
      (mkWorld 100 [0xA5; 0x01] [[0x00]; [0xA4]] [])
    = Some (TIMEOUT, [0x09], mkMaster [Some dummyDevice], w') /\
    clock w' - 100 = 3.
Proof.
  apply (receive_timeout_floor 4 0 DIAGNOSTIC [0x09] 3
           (mkMaster [Some dummyDevice])
           (mkWorld 100 [0xA5; 0x01] [[0x00]; [0xA4]] [])).
  - vm_compute. split; [discriminate|reflexivity].
  - unfold is_u32; lia.
  - intros n receivedType payload.
    do 5 (destruct n as [|n]; [vm_compute; try discriminate|]).
    + intros [= <- _]. reflexivity.
    + vm_compute. intros [= <- _]. reflexivity.
  - simpl; lia.
Defined.

(* ------------------------------------------------------------------ *)
(** ** Frames that are not accepted stay in the buffer *)

Lemma build_u8 (type : MessageType) (payload : list Z) :
  Forall is_u8 payload -> Forall is_u8 (buildIOLinkMessage type payload).
Proof.
  intros Hp. rewrite build_shape.
  repeat constructor; try (unfold is_u8, START_BYTE; lia);
    try apply type_to_byte_u8; try apply to_u8_range.
  apply Forall_app. split; [exact Hp|].
  constructor; [|constructor].
  unfold frame_checksum. apply xor_bytes_range, to_u8_range.
Qed.

(** A well-formed frame of another type is a mismatched frame. *)
Lemma other_type_mismatched (type type' : MessageType) (payload : list Z) :
  Forall is_u8 payload -> (length payload <= 255)%nat -> type' <> type ->
  mismatched_frame type (buildIOLinkMessage type' payload).
Proof.
  intros Hp Hlen Hne. split; [apply build_u8, Hp|]. split.
  - rewrite build_shape. cbn [length nth]. rewrite length_app.
    rewrite to_u8_id by (unfold is_u8; lia). simpl. lia.
  - intros receivedType payload'. rewrite parse_build by exact Hlen.
    intros [= <- _].
    destruct (MessageType_eqb type' type) eqn:E; [|reflexivity].
    apply MessageType_eqb_eq in E. contradiction.
Qed.

(** So is a frame of any type whose last byte is not its checksum. *)
Lemma bad_checksum_mismatched (type type' : MessageType) (payload : list Z)
  (c : Z) :
  Forall is_u8 payload -> (length payload <= 255)%nat -> is_u8 c ->
  c <> frame_checksum (type_to_byte type') (Z.of_nat (length payload)) payload ->
  mismatched_frame type
    (START_BYTE :: type_to_byte type' :: Z.of_nat (length payload)
     :: payload ++ [c]).
Proof.
  intros Hp Hlen Hc Hne. split; [|split].
  - repeat constructor; try (unfold is_u8, START_BYTE; lia);
      try apply type_to_byte_u8.
    apply Forall_app. split; [exact Hp|]. constructor; [exact Hc|constructor].
  - cbn [length nth]. rewrite length_app. simpl. lia.
  - intros receivedType payload'.
    rewrite parse_header_body by (rewrite ?length_app; simpl; lia).
    rewrite byte_to_type_to_byte. cbv zeta.
    rewrite firstn_exact, nth_exact by (symmetry; apply Nat2Z.id).
    destruct (Z.eqb_spec c
                (frame_checksum (type_to_byte type')
                   (Z.of_nat (length payload)) payload)); [contradiction|].
    discriminate.
Qed.

(** C7, counterexample. The master waits up to 10 ms for a ProcessData
    frame.  In the first millisecond a valid Parameter frame
    A5 02 00 A7 arrives, in the third the valid ProcessData frame
    A5 01 01 42 E7.  [receiveMessage] returns Timeout and leaves the
    caller's data untouched; it never returns the payload 42.  The same
    happens when the first frame is A5 01 00 00, a ProcessData frame
    with a wrong checksum. *)
Lemma stale_frame_counterexample :
  let m := mkMaster [Some dummyDevice] in
  let good := [0xA5; 0x01; 0x01; 0x42; 0xE7] in
  let other_type := [0xA5; 0x02; 0x00; 0xA7] in
  let bad_checksum := [0xA5; 0x01; 0x00; 0x00] in
  parseIOLinkMessage good = Parsed PROCESS_DATA [0x42] /\
  parseIOLinkMessage other_type = Parsed PARAMETER [] /\
  parseIOLinkMessage bad_checksum = ParseFailed COMMUNICATION_ERROR /\
  receiveMessage 11 0 PROCESS_DATA [] 10 m
    (mkWorld 0 [] [other_type; []; good] [])
  = Some (TIMEOUT, [], m, mkWorld 10 [] [] []) /\
  receiveMessage 11 0 PROCESS_DATA [] 10 m
    (mkWorld 0 [] [bad_checksum; []; good] [])
  = Some (TIMEOUT, [], m, mkWorld 10 [] [] []) /\
  receiveMessage 11 0 PROCESS_DATA [] 10 m (mkWorld 0 [] [[]; []; good] [])
  = Some (NONE, [0x42], m, mkWorld 3 [] [] []).
Proof. repeat split; vm_compute; reflexivity. Qed.

(** C7, amended. During [receiveMessage] every byte read is appended to
    one buffer that is kept until the call returns, and each poll
    decodes that buffer from its first byte.  A complete frame that
    fails its checksum or has another type than the expected one is
    therefore not discarded: polling continues, but once such a frame
    heads the incoming bytes, whatever follows it, a valid frame of the
    expected type included, is never returned, and on a valid port
    [receiveMessage] ends with Timeout after the full timeout. *)
Theorem mismatched_frame_blocks_receive (fuel : nat) (port : Z)
  (type : MessageType) (data : list Z) (timeout : Z) (m : IOLinkMaster)
  (w : World) (bad rest : list Z) :
  0 <= port < size m -> is_u32 timeout ->
  mismatched_frame type bad ->
  incoming w = bad ++ rest ->
  (Z.to_nat timeout < fuel)%nat ->
  exists w',
    receiveMessage fuel port type data timeout m w
    = Some (TIMEOUT, data, m, w') /\
    clock w' - clock w = timeout.
Proof.
  intros Hport Ht Hbad Hin Hfuel.
  destruct (receiveMessage_times_out fuel port type data timeout m w)
    as (w' & Hrun & Hc & _); try assumption.
  - rewrite Hin. apply mismatched_never_matches, Hbad.
  - exists w'. split; assumption.
Qed.

Lemma mismatched_frame_blocks_receive_witness :
  exists w',
    receiveMessage 6 0 EVENT [0x01] 5 (mkMaster [Some dummyDevice])
      (mkWorld 7 [0xA5; 0x03] [[0x00; 0xA6]; buildIOLinkMessage EVENT [0x33]] [])
    = Some (TIMEOUT, [0x01], mkMaster [Some dummyDevice], w') /\
    clock w' - 7 = 5.
Proof.
  apply (mismatched_frame_blocks_receive 6 0 EVENT [0x01] 5
           (mkMaster [Some dummyDevice])
           (mkWorld 7 [0xA5; 0x03]
              [[0x00; 0xA6]; buildIOLinkMessage EVENT [0x33]] [])
           [0xA5; 0x03; 0x00; 0xA6] (buildIOLinkMessage EVENT [0x33])).
  - vm_compute. split; [discriminate|reflexivity].
  - unfold is_u32; lia.
  - split; [|split].
    + repeat constructor; unfold is_u8; lia.
    + reflexivity.
    + vm_compute. intros receivedType payload [= <- _]. reflexivity.
  - reflexivity.
  - simpl; lia.
Defined.

(* ------------------------------------------------------------------ *)
(** ** More on the frame codec *)

Lemma byte_to_type_inv (v : Z) (type : MessageType) :
  byte_to_type v = Some type -> v = type_to_byte type.
Proof.
  unfold byte_to_type.
  destruct (Z.eqb_spec v 1); [intros [= <-]; assumption|].
  destruct (Z.eqb_spec v 2); [intros [= <-]; assumption|].
  destruct (Z.eqb_spec v 3); [intros [= <-]; assumption|].
  destruct (Z.eqb_spec v 4); [intros [= <-]; assumption|].
  discriminate.
Qed.

Lemma type_to_byte_inj (a b : MessageType) :
  type_to_byte a = type_to_byte b -> a = b.
Proof. destruct a, b; simpl; intros H; try reflexivity; discriminate. Qed.

Lemma build_length (type : MessageType) (payload : list Z) :
  length (buildIOLinkMessage type payload) = (length payload + 4)%nat.
Proof. rewrite build_shape. cbn [length]. rewrite length_app. simpl. lia. Qed.

(** A buffer of bytes that decodes starts with the encoding of what it
    decodes to. *)
Lemma parse_ok_prefix (rawData : list Z) (type : MessageType)
  (payload : list Z) :
  Forall is_u8 rawData ->
  parseIOLinkMessage rawData = Parsed type payload ->
  (length payload <= 255)%nat /\
  exists more, rawData = buildIOLinkMessage type payload ++ more.
Proof.
  intros Hbytes Hparse.
  pose proof (parse_ok_length _ _ _ Hparse) as [H4 Hsize].
  destruct rawData as [|a [|tv [|len body]]]; cbn [length nth] in *; try lia.
  inversion Hbytes as [|? ? _ H1]. inversion H1 as [|? ? _ H2].
  inversion H2 as [|? ? Hlen _]. clear H1 H2. unfold is_u8 in Hlen.
  destruct (Z.eq_dec a START_BYTE) as [->|Ha];
    [|rewrite parse_bad_start in Hparse by (cbn [nth]; exact Ha);
      discriminate].
  rewrite parse_header_body in Hparse by lia.
  destruct (byte_to_type tv) as [type0|] eqn:Htype; [|discriminate].
  apply byte_to_type_inv in Htype. cbv zeta in Hparse.
  destruct (Z.eqb_spec (nth (Z.to_nat len) body 0)
              (frame_checksum tv len (firstn (Z.to_nat len) body)))
    as [Hsum|_]; [|discriminate].
  injection Hparse as -> <-.
  assert (length (firstn (Z.to_nat len) body) = Z.to_nat len) as Hl
    by (rewrite length_firstn; lia).
  split; [lia|].
  exists (skipn (S (Z.to_nat len)) body).
  rewrite build_shape, Hl, Z2Nat.id, to_u8_id by (unfold is_u8; lia).
  rewrite <- Htype, <- Hsum. cbn [app]. do 3 f_equal.
  rewrite <- app_assoc. cbn [app].
  rewrite <- (skipn_nth_cons (Z.to_nat len) body 0) by lia.
  symmetry. apply firstn_skipn.
Qed.

(** Whatever follows an encoded frame, the frame is what is decoded. *)
Lemma parse_build_app (type : MessageType) (payload more : list Z) :
  (length payload <= 255)%nat ->
  parseIOLinkMessage (buildIOLinkMessage type payload ++ more)
  = Parsed type payload.
Proof.
  intros Hlen.
  rewrite parse_app_complete; [apply parse_build, Hlen| |];
    rewrite build_shape; cbn [nth length]; rewrite ?length_app;
    rewrite to_u8_id by (unfold is_u8; lia); simpl; lia.
Qed.

Lemma parse_firstn_build (type : MessageType) (payload : list Z) (n : nat) :
  (length payload <= 255)%nat -> (n < length payload + 4)%nat ->
  parseIOLinkMessage (firstn n (buildIOLinkMessage type payload))
  = ParseFailed COMMUNICATION_ERROR.
Proof.
  intros Hlen Hn. apply parse_short.
  rewrite length_firstn, nth_firstn, build_length.
  destruct (Nat.ltb_spec 2 n); [|lia].
  rewrite build_shape. cbn [nth].
  rewrite to_u8_id by (unfold is_u8; lia). lia.
Qed.

(** X1. On a buffer of bytes the decoder accepts exactly the encoder's
    output followed by anything: it returns a type and payload if and
    only if the payload has at most 255 bytes and the buffer starts
    with the frame [buildIOLinkMessage] makes of them. *)
Theorem parse_accepts_iff (rawData : list Z) (type : MessageType)
  (payload : list Z) :
  Forall is_u8 rawData ->
  (parseIOLinkMessage rawData = Parsed type payload <->
   (length payload <= 255)%nat /\
   exists more, rawData = buildIOLinkMessage type payload ++ more).
Proof.
  intros Hbytes. split.
  - apply parse_ok_prefix, Hbytes.
  - intros [Hlen [more ->]]. apply parse_build_app, Hlen.
Qed.

Lemma parse_accepts_iff_witness :
  parseIOLinkMessage [0xA5; 0x04; 0x01; 0x07; 0xA7; 0x55; 0x66]
  = Parsed EVENT [0x07].
Proof.
  apply (parse_accepts_iff [0xA5; 0x04; 0x01; 0x07; 0xA7; 0x55; 0x66]
           EVENT [0x07]).
  - repeat constructor; unfold is_u8; lia.
  - split; [simpl; lia|]. exists [0x55; 0x66]. reflexivity.
Defined.

(** X2. Encoding is injective for payloads of every length: two frames
    are equal only if they were built from the same type and the same
    payload. *)
Theorem build_injective (type type' : MessageType) (payload payload' : list Z) :
  buildIOLinkMessage type payload = buildIOLinkMessage type' payload' ->
  type = type' /\ payload = payload'.
Proof.
  rewrite !build_shape. intros [= Htype _ Hbody].
  apply app_inj_tail in Hbody as [Hp _].
  split; [apply type_to_byte_inj, Htype|exact Hp].
Qed.

Lemma build_injective_witness :
  PARAMETER = PARAMETER /\ [0x01; 0x02] = [0x01; 0x02].
Proof.
  apply (build_injective PARAMETER PARAMETER [0x01; 0x02] [0x01; 0x02]).
  reflexivity.
Defined.

(** X3. The exclusive or of all bytes of an encoded frame, checksum
    included, is zero, whatever the length of the payload. *)
Theorem frame_xor_is_zero (type : MessageType) (payload : list Z) :
  Forall is_u8 payload ->
  fold_left Z.lxor (buildIOLinkMessage type payload) 0 = 0.
Proof.
  intros Hp. rewrite build_shape. cbn [fold_left].
  rewrite fold_left_app. cbn [fold_left].
  rewrite frame_checksum_lxor
    by (try apply type_to_byte_u8; try apply to_u8_range; exact Hp).
  rewrite Z.lxor_0_l. apply Z.lxor_nilpotent.
Qed.

Lemma frame_xor_is_zero_witness :
  fold_left Z.lxor (buildIOLinkMessage DIAGNOSTIC [0xDE; 0xAD; 0xBE; 0xEF]) 0
  = 0.
Proof.
  apply (frame_xor_is_zero DIAGNOSTIC [0xDE; 0xAD; 0xBE; 0xEF]).
  repeat constructor; unfold is_u8; lia.
Defined.

Lemma flip_at_last (k : Z) (l : list Z) (c : Z) :
  flip_at (length l) k (l ++ [c]) = l ++ [flip_bit c k].
Proof.
  induction l as [|b rest IH]; cbn [length app flip_at]; [reflexivity|].
  rewrite IH. reflexivity.
Qed.

(** X4. Inverting any one bit of the checksum byte of a frame encoded
    from a payload of at most 255 bytes makes decoding fail with
    CommunicationError. *)
Theorem checksum_byte_flip_rejected (type : MessageType) (payload : list Z)
  (k : Z) :
  (length payload <= 255)%nat -> 0 <= k ->
  parseIOLinkMessage
    (flip_at (3 + length payload) k (buildIOLinkMessage type payload))
  = ParseFailed COMMUNICATION_ERROR.
Proof.
  intros Hlen Hk. rewrite build_shape.
  rewrite to_u8_id by (unfold is_u8; lia).
  cbn [Nat.add flip_at]. rewrite flip_at_last.
  rewrite parse_header_body by (rewrite ?length_app; simpl; lia).
  rewrite byte_to_type_to_byte. cbv zeta.
  rewrite firstn_exact, nth_exact by (symmetry; apply Nat2Z.id).
  destruct (Z.eqb_spec
              (flip_bit (frame_checksum (type_to_byte type)
                           (Z.of_nat (length payload)) payload) k)
              (frame_checksum (type_to_byte type)
                 (Z.of_nat (length payload)) payload)) as [Heq|_];
    [|reflexivity].
  exfalso. revert Heq. apply flip_bit_neq, Hk.
Qed.

Lemma checksum_byte_flip_rejected_witness :
  parseIOLinkMessage (flip_at 5 3 (buildIOLinkMessage PROCESS_DATA [0x12; 0x34]))
  = ParseFailed COMMUNICATION_ERROR.
Proof.
  apply (checksum_byte_flip_rejected PROCESS_DATA [0x12; 0x34] 3).
  - simpl; lia.
  - lia.
Defined.

(** X5. A frame cut short is never accepted: every proper prefix of a
    frame encoded from a payload of at most 255 bytes fails to decode
    with CommunicationError. *)
Theorem truncated_frame_rejected (type : MessageType) (payload : list Z)
  (n : nat) :
  (length payload <= 255)%nat -> (n < length payload + 4)%nat ->
  parseIOLinkMessage (firstn n (buildIOLinkMessage type payload))
  = ParseFailed COMMUNICATION_ERROR.
Proof. apply parse_firstn_build. Qed.

Lemma truncated_frame_rejected_witness :
  parseIOLinkMessage (firstn 5 (buildIOLinkMessage PARAMETER [0x01; 0x02]))
  = ParseFailed COMMUNICATION_ERROR.
Proof.
  apply (truncated_frame_rejected PARAMETER [0x01; 0x02] 5); simpl; lia.
Defined.

Lemma nth_flip_at_same (j : nat) (k : Z) (l : list Z) (d : Z) :
  (j < length l)%nat -> nth j (flip_at j k l) d = flip_bit (nth j l d) k.
Proof.
  revert j. induction l as [|b rest IH]; intros [|j] Hj; simpl in Hj;
    try lia; cbn [flip_at nth]; [reflexivity|].
  apply IH. lia.
Qed.

Lemma nth_flip_at_other (i j : nat) (k : Z) (l : list Z) (d : Z) :
  i <> j -> nth j (flip_at i k l) d = nth j l d.
Proof.
  revert i j. induction l as [|b rest IH]; intros [|i] [|j] Hij;
    cbn [flip_at nth]; try reflexivity; try lia.
  apply IH. lia.
Qed.

(** X6. The checksum does not see the same bit inverted in two
    different payload bytes: such a frame decodes successfully, with
    the right type and the damaged payload, which differs from the one
    that was encoded. *)
Theorem same_bit_twice_undetected (type : MessageType) (payload : list Z)
  (i j : nat) (k : Z) :
  Forall is_u8 payload -> (length payload <= 255)%nat ->
  (i < length payload)%nat -> (j < length payload)%nat -> i <> j ->
  0 <= k < 8 ->
  parseIOLinkMessage
    (flip_at (3 + i) k (flip_at (3 + j) k (buildIOLinkMessage type payload)))
  = Parsed type (flip_at i k (flip_at j k payload)) /\
  flip_at i k (flip_at j k payload) <> payload.
Proof.
  intros Hp Hlen Hi Hj Hij Hk. split.
  - rewrite build_shape. rewrite to_u8_id by (unfold is_u8; lia).
    cbn [Nat.add flip_at].
    rewrite (flip_at_app j) by lia.
    rewrite (flip_at_app i) by (rewrite flip_at_length; lia).
    rewrite parse_header_body
      by (rewrite ?length_app, ?flip_at_length; simpl; lia).
    rewrite byte_to_type_to_byte. cbv zeta.
    rewrite firstn_exact, nth_exact
      by (rewrite !flip_at_length; symmetry; apply Nat2Z.id).
    assert (frame_checksum (type_to_byte type) (Z.of_nat (length payload))
              (flip_at i k (flip_at j k payload))
            = frame_checksum (type_to_byte type) (Z.of_nat (length payload))
                payload) as ->.
    { rewrite !frame_checksum_lxor
        by (auto using flip_at_u8, type_to_byte_u8; unfold is_u8; lia).
      rewrite !fold_lxor_flip_at by (rewrite ?flip_at_length; lia).
      rewrite Z.lxor_assoc, Z.lxor_nilpotent. apply Z.lxor_0_r. }
    rewrite Z.eqb_refl. reflexivity.
  - intros Heq. apply (f_equal (fun l => nth j l 0)) in Heq.
    rewrite nth_flip_at_other, nth_flip_at_same in Heq by assumption.
    revert Heq. apply flip_bit_neq. lia.
Qed.

Lemma same_bit_twice_undetected_witness :
  parseIOLinkMessage
    (flip_at 3 6 (flip_at 5 6
       (buildIOLinkMessage PROCESS_DATA [0x10; 0x20; 0x30])))
  = Parsed PROCESS_DATA (flip_at 0 6 (flip_at 2 6 [0x10; 0x20; 0x30])) /\
  flip_at 0 6 (flip_at 2 6 [0x10; 0x20; 0x30]) <> [0x10; 0x20; 0x30].
Proof.
  apply (same_bit_twice_undetected PROCESS_DATA [0x10; 0x20; 0x30] 0 2 6).
  - repeat constructor; unfold is_u8; lia.
  - simpl; lia.
  - simpl; lia.
  - simpl; lia.
  - discriminate.
  - lia.
Defined.

(* ------------------------------------------------------------------ *)
(** ** Sending, waking up, scanning *)

Lemma send_loop_spec (message : list Z) :
  forall w : World,
    send_loop message w
    = mkWorld (clock w) (rx_fifo w) (line w) (tx_log w ++ message).
Proof.
  induction message as [|byte rest IH]; intros w; cbn [send_loop].
  - rewrite app_nil_r. destruct w; reflexivity.
  - rewrite IH. unfold SendChar. cbn [clock rx_fifo line tx_log].
    rewrite <- app_assoc. reflexivity.
Qed.

(** X7. On a valid port [sendMessage] returns None and puts exactly
    the encoded frame on the line, after whatever was sent before; it
    reads nothing, takes no time and leaves the registry alone.  For a
    payload of at most 255 bytes the bytes it sent decode back to the
    type and payload it was given. *)
Theorem sendMessage_in_range (port : Z) (type : MessageType) (data : list Z)
  (m : IOLinkMaster) (w : World) :
  0 <= port < size m ->
  sendMessage port type data m w
  = (NONE, m,
     mkWorld (clock w) (rx_fifo w) (line w)
       (tx_log w ++ buildIOLinkMessage type data)) /\
  ((length data <= 255)%nat ->
   parseIOLinkMessage
     (skipn (length (tx_log w))
        (tx_log (snd (sendMessage port type data m w))))
   = Parsed type data).
Proof.
  intros Hport. unfold sendMessage.
  destruct (Z.geb_spec port (size m)) as [Hge|_]; [lia|].
  rewrite send_loop_spec. split; [reflexivity|].
  intros Hlen. cbn [snd tx_log].
  rewrite skipn_app, Nat.sub_diag, skipn_all. cbn [skipn app].
  apply parse_build, Hlen.
Qed.

Lemma sendMessage_in_range_witness :
  sendMessage 0 PARAMETER [0x10; 0x20] (mkMaster [Some dummyDevice])
    (mkWorld 9 [0x01] [[0x02]] [0x00; 0x00])
  = (NONE, mkMaster [Some dummyDevice],
     mkWorld 9 [0x01] [[0x02]]
       ([0x00; 0x00] ++ buildIOLinkMessage PARAMETER [0x10; 0x20])).
Proof.
  apply (sendMessage_in_range 0 PARAMETER [0x10; 0x20]
           (mkMaster [Some dummyDevice])
           (mkWorld 9 [0x01] [[0x02]] [0x00; 0x00])).
  vm_compute. split; [discriminate|reflexivity].
Defined.

Lemma wakeup_loop_spec (count : nat) (wakeupPattern : Z) :
  forall w : World,
    wakeup_loop count wakeupPattern w
    = mkWorld (clock w) (rx_fifo w) (line w)
        (tx_log w ++ repeat wakeupPattern count).
Proof.
  induction count as [|count IH]; intros w; cbn [wakeup_loop repeat].
  - rewrite app_nil_r. destruct w; reflexivity.
  - rewrite IH. unfold SendChar. cbn [clock rx_fifo line tx_log].
    rewrite <- app_assoc. reflexivity.
Qed.

(** X8. On every valid port and for every operation mode,
    [activatePort] returns None after sending exactly ten zero bytes:
    the mode plays no part, nothing is read, no time passes and the
    registry is unchanged. *)
Theorem activatePort_in_range (port : Z) (mode : OperationMode)
  (m : IOLinkMaster) (w : World) :
  0 <= port < size m ->
  activatePort port mode m w
  = (NONE, m,
     mkWorld (clock w) (rx_fifo w) (line w) (tx_log w ++ repeat 0 10)).
Proof.
  intros Hport. unfold activatePort.
  destruct (Z.geb_spec port (size m)) as [Hge|_]; [lia|].
  rewrite wakeup_loop_spec. reflexivity.
Qed.

Lemma activatePort_in_range_witness :
  activatePort 1 COM3 (mkMaster [None; Some dummyDevice])
    (mkWorld 4 [0xA5] [] [0x11])
  = (NONE, mkMaster [None; Some dummyDevice],
     mkWorld 4 [0xA5] [] ([0x11] ++ repeat 0 10)).
Proof.
  apply (activatePort_in_range 1 COM3 (mkMaster [None; Some dummyDevice])
           (mkWorld 4 [0xA5] [] [0x11])).
  vm_compute. split; [discriminate|reflexivity].
Defined.

(** X9. The registry after [scanForDevices] does not depend on the
    registry before it, so scanning again changes nothing; it has one
    port, and [getDevice] returns nothing for every port index other
    than 0. *)
Theorem scan_resets_registry (m m0 : IOLinkMaster) (w w0 : World) (port : Z) :
  is_u8 port -> port <> 0 ->
  let scanned := snd (fst (scanForDevices m w)) in
  scanned = snd (fst (scanForDevices m0 w0)) /\
  snd (fst (scanForDevices scanned w)) = scanned /\
  size scanned = 1 /\
  getDevice port scanned = None.
Proof.
  intros Hport Hne. cbv zeta. repeat split.
  unfold getDevice, scanForDevices. cbn [fst snd app].
  unfold size, is_u8 in *. cbn [m_devices length].
  destruct (Z.ltb_spec port (Z.of_nat 1)); [lia|reflexivity].
Qed.

Lemma scan_resets_registry_witness :
  getDevice 1
    (snd (fst (scanForDevices (mkMaster [None; Some dummyDevice; None])
                 (mkWorld 0 [] [] []))))
  = None.
Proof.
  apply (scan_resets_registry (mkMaster [None; Some dummyDevice; None])
           (mkMaster []) (mkWorld 0 [] [] []) (mkWorld 0 [] [] []) 1).
  - unfold is_u8; lia.
  - discriminate.
Defined.

(* ------------------------------------------------------------------ *)
(** ** What [receiveMessage] returns, and when *)

Lemma arrived_tick (w : World) (j : nat) : arrived (tick w) j = arrived w (S j).
Proof.
  destruct w as [c rx [|chunk l] t]; unfold arrived, tick;
    cbn [rx_fifo line hd tl firstn concat].
  - rewrite firstn_nil. cbn [concat]. rewrite !app_nil_r. reflexivity.
  - rewrite <- app_assoc. reflexivity.
Qed.

Lemma arrived_drained (w : World) (j : nat) :
  length (arrived w j)
  = (length (rx_fifo w)
     + length (arrived (mkWorld (clock w) [] (line w) (tx_log w)) j))%nat.
Proof. unfold arrived. cbn [rx_fifo line app]. apply length_app. Qed.

Lemma incoming_drained (w : World) :
  incoming w
  = rx_fifo w ++ incoming (mkWorld (clock w) [] (line w) (tx_log w)).
Proof. reflexivity. Qed.

Lemma no_bytes_available (w : World) :
  (BytesAvailable w >? 0) = false -> rx_fifo w = [].
Proof.
  unfold BytesAvailable. destruct (rx_fifo w); [reflexivity|].
  cbn [length]. destruct (Z.gtb_spec (Z.of_nat (S (length l))) 0); [|lia].
  discriminate.
Qed.

Lemma MessageType_eqb_refl (a : MessageType) : MessageType_eqb a a = true.
Proof. destruct a; reflexivity. Qed.

Lemma map_to_u8_bytes (l : list Z) : Forall is_u8 (map to_u8 l).
Proof.
  induction l as [|b rest IH]; cbn [map]; constructor;
    [apply to_u8_range|exact IH].
Qed.

Section ReceiveRuns.

Variable type : MessageType.
Variable data : list Z.
Variable timeout : Z.
Variable c0 : Z.

Hypothesis timeout_u32 : timeout < 4294967296.

(** The loop never sends and the clock never runs backwards; it ends
    with None or with Timeout, and Timeout leaves [data] alone. *)
Lemma receive_loop_effects (fuel : nat) :
  forall (rawData : list Z) (w : World) (e : ErrorCode) (d : list Z)
         (w' : World),
    receive_loop fuel type data timeout (to_u32 c0) rawData w
    = Some (e, d, w') ->
    tx_log w' = tx_log w /\ clock w <= clock w' /\
    (e = NONE \/ e = TIMEOUT /\ d = data).
Proof.
  induction fuel as [|fuel IH]; intros rawData w e d w';
    cbn [receive_loop]; [discriminate|].
  destruct (sub32 (Milliseconds w) (to_u32 c0) <? timeout).
  - destruct (BytesAvailable w >? 0).
    + rewrite read_available_spec, delay_1.
      destruct (parseIOLinkMessage _) as [receivedType payload|err].
      * destruct (MessageType_eqb receivedType type).
        -- intros [= <- <- <-]. cbn [tx_log clock]. repeat split; auto. lia.
        -- intros Hrun. apply IH in Hrun. cbn [tick tx_log clock] in Hrun.
           repeat split; try tauto. lia.
      * intros Hrun. apply IH in Hrun. cbn [tick tx_log clock] in Hrun.
        repeat split; try tauto. lia.
    + rewrite delay_1. intros Hrun. apply IH in Hrun.
      cbn [tick tx_log clock] in Hrun. repeat split; try tauto. lia.
  - intros [= <- <- <-]. repeat split; auto. lia.
Qed.

(** With [n] milliseconds of budget left, [n + 1] rounds are enough for
    the loop to return, and it returns no later than the deadline. *)
Lemma receive_loop_returns (n : nat) :
  forall (fuel : nat) (rawData : list Z) (w : World),
    0 <= clock w - c0 ->
    clock w - c0 + Z.of_nat n = timeout ->
    (n < fuel)%nat ->
    exists e d w',
      receive_loop fuel type data timeout (to_u32 c0) rawData w
      = Some (e, d, w') /\
      clock w' <= c0 + timeout.
Proof.
  induction n as [|n IH]; intros fuel rawData w Hclock Hleft Hfuel;
    (destruct fuel as [|fuel]; [lia|]); cbn [receive_loop];
    rewrite elapsed_u32, Z.mod_small by lia.
  - destruct (Z.ltb_spec (clock w - c0) timeout); [lia|].
    exists TIMEOUT, data, w. split; [reflexivity|lia].
  - destruct (Z.ltb_spec (clock w - c0) timeout); [|lia].
    destruct (BytesAvailable w >? 0).
    + rewrite read_available_spec, delay_1.
      destruct (parseIOLinkMessage _) as [receivedType payload|err].
      * destruct (MessageType_eqb receivedType type).
        -- eexists _, _, _. split; [reflexivity|]. cbn [clock]. lia.
        -- apply IH; cbn [tick clock]; lia.
      * apply IH; cbn [tick clock]; lia.
    + rewrite delay_1. apply IH; cbn [tick clock]; lia.
Qed.

(** A payload is only ever returned when the bytes read begin with the
    frame that encodes it under the expected type. *)
Lemma receive_loop_sound (fuel : nat) :
  forall (rawData : list Z) (w : World) (d : list Z) (w' : World),
    Forall is_u8 rawData ->
    receive_loop fuel type data timeout (to_u32 c0) rawData w
    = Some (NONE, d, w') ->
    (length d <= 255)%nat /\
    exists more,
      rawData ++ map to_u8 (incoming w) = buildIOLinkMessage type d ++ more.
Proof.
  induction fuel as [|fuel IH]; intros rawData w d w' Hbytes;
    cbn [receive_loop]; [discriminate|].
  destruct (sub32 (Milliseconds w) (to_u32 c0) <? timeout); [|discriminate].
  destruct (BytesAvailable w >? 0).
  - rewrite read_available_spec, delay_1.
    set (w1 := mkWorld (clock w) [] (line w) (tx_log w)).
    assert (Forall is_u8 (rawData ++ map to_u8 (rx_fifo w))) as Hbytes'
      by (apply Forall_app; split; [exact Hbytes|apply map_to_u8_bytes]).
    assert (rawData ++ map to_u8 (incoming w)
            = (rawData ++ map to_u8 (rx_fifo w))
              ++ map to_u8 (incoming (tick w1))) as Hstream.
    { rewrite incoming_tick, (incoming_drained w), map_app, app_assoc.
      reflexivity. }
    rewrite Hstream.
    destruct (parseIOLinkMessage _) as [receivedType payload|err] eqn:E.
    + destruct (MessageType_eqb receivedType type) eqn:Et.
      * intros [= <- _]. apply MessageType_eqb_eq in Et. subst receivedType.
        destruct (parse_ok_prefix _ _ _ Hbytes' E) as [Hlen [more Hmore]].
        split; [exact Hlen|].
        exists (more ++ map to_u8 (incoming (tick w1))).
        rewrite Hmore, app_assoc. reflexivity.
      * apply IH, Hbytes'.
    + apply IH, Hbytes'.
  - rewrite delay_1, <- (incoming_tick w). apply IH, Hbytes.
Qed.

Variable payload : list Z.
Variable rest : list Z.

Hypothesis payload_fits : (length payload <= 255)%nat.

(** Once the whole frame has arrived, at the latest [j] milliseconds
    from now and before the deadline, the loop returns its payload. *)
Lemma receive_loop_accepts (j : nat) :
  forall (fuel : nat) (rawData : list Z) (w : World),
    rawData ++ map to_u8 (incoming w)
    = buildIOLinkMessage type payload ++ rest ->
    (length rawData < length payload + 4)%nat ->
    (length payload + 4 <= length rawData + length (arrived w j))%nat ->
    0 <= clock w - c0 ->
    clock w - c0 + Z.of_nat j < timeout ->
    (j < fuel)%nat ->
    exists w',
      receive_loop fuel type data timeout (to_u32 c0) rawData w
      = Some (NONE, payload, w') /\
      clock w' - clock w <= Z.of_nat j /\ tx_log w' = tx_log w.
Proof.
  induction j as [|j IH];
    intros fuel rawData w Hstream Hshort Hfull Hclock Hleft Hfuel;
    (destruct fuel as [|fuel]; [lia|]); cbn [receive_loop];
    rewrite elapsed_u32, Z.mod_small by lia;
    (destruct (Z.ltb_spec (clock w - c0) timeout); [|lia]);
    destruct (BytesAvailable w >? 0) eqn:Hav.
  all: try (apply no_bytes_available in Hav).
  all: try rewrite read_available_spec, delay_1.
  all: try rewrite delay_1.
  all: pose proof (arrived_drained w) as Hdr.
  all: rewrite (incoming_drained w), map_app, app_assoc in Hstream.
  all: set (w1 := mkWorld (clock w) [] (line w) (tx_log w)) in *.
  all: set (rawData' := rawData ++ map to_u8 (rx_fifo w)) in *.
  all: assert (length rawData' = (length rawData + length (rx_fifo w))%nat)
         as Hlen' by (unfold rawData'; rewrite length_app, length_map; lia).
  all: assert (rawData'
               = firstn (length rawData')
                   (buildIOLinkMessage type payload ++ rest)) as Hpre
         by (rewrite <- Hstream, firstn_length_app; reflexivity).
  - (* j = 0, bytes available: the frame is complete *)
    assert (length (arrived w1 0) = 0%nat) as H0 by reflexivity.
    rewrite Hpre, firstn_app, firstn_all2, parse_build_app
      by (rewrite ?build_length; try exact payload_fits; rewrite Hdr in Hfull; lia).
    rewrite MessageType_eqb_refl.
    exists w1. repeat split. unfold w1. cbn [clock]. lia.
  - (* j = 0, nothing available: impossible *)
    exfalso. unfold arrived in Hfull. rewrite Hav in Hfull.
    cbn [firstn concat app length] in Hfull. lia.
  - (* j > 0, bytes available *)
    destruct (Nat.le_gt_cases (length payload + 4) (length rawData'))
      as [Hdone|Hmore].
    + rewrite Hpre, firstn_app, firstn_all2, parse_build_app
        by (rewrite ?build_length; try exact payload_fits; lia).
      rewrite MessageType_eqb_refl.
      exists w1. repeat split. unfold w1. cbn [clock]. lia.
    + assert (parseIOLinkMessage rawData' = ParseFailed COMMUNICATION_ERROR)
        as ->.
      { rewrite Hpre, firstn_app.
        replace (length rawData'
                 - length (buildIOLinkMessage type payload))%nat
          with 0%nat by (rewrite build_length; lia).
        cbn [firstn]. rewrite app_nil_r.
        apply parse_firstn_build; [exact payload_fits|lia]. }
      destruct (IH fuel rawData' (tick w1)) as (w' & Hrun & Hc & Ht);
        try (unfold w1; cbn [tick clock]; lia).
      * rewrite incoming_tick. exact Hstream.
      * rewrite arrived_tick.
        rewrite (arrived_drained w (S j)) in Hfull. fold w1 in Hfull. lia.
      * exists w'. rewrite Hrun. unfold w1 in Hc, Ht.
        cbn [tick clock tx_log] in Hc, Ht.
        repeat split; [lia|exact Ht].
  - (* j > 0, nothing available *)
    destruct (IH fuel rawData (tick w)) as (w' & Hrun & Hc & Ht);
      try (cbn [tick clock]; lia).
    + rewrite incoming_tick, (incoming_drained w), map_app, app_assoc.
      exact Hstream.
    + rewrite arrived_tick. exact Hfull.
    + exists w'. rewrite Hrun. cbn [tick clock tx_log] in Hc, Ht.
      repeat split; [lia|exact Ht].
Qed.

End ReceiveRuns.

Lemma receiveMessage_accepts (fuel : nat) (port : Z) (type : MessageType)
  (data payload rest : list Z) (timeout : Z) (m : IOLinkMaster) (w : World)
  (j : nat) :
  0 <= port < size m -> is_u32 timeout ->
  Forall is_u8 payload -> (length payload <= 255)%nat ->
  incoming w = buildIOLinkMessage type payload ++ rest ->
  (length payload + 4 <= length (arrived w j))%nat ->
  Z.of_nat j < timeout -> (j < fuel)%nat ->
  exists w',
    receiveMessage fuel port type data timeout m w
    = Some (NONE, payload, m, w') /\
    clock w' - clock w <= Z.of_nat j /\ tx_log w' = tx_log w.
Proof.
  intros Hport Ht Hp Hlen Hin Hfull Hj Hfuel.
  unfold receiveMessage, is_u32 in *.
  destruct (Z.geb_spec port (size m)) as [Hge|_]; [lia|].
  destruct (receive_loop_accepts type data timeout (clock w) (proj2 Ht)
              payload (map to_u8 rest) Hlen j fuel [] w)
    as (w' & Hrun & Hc & Htx); cbn [length app]; try lia.
  - rewrite Hin, map_app, (map_to_u8_id _ (build_u8 type payload Hp)).
    reflexivity.
  - exists w'. unfold Milliseconds. rewrite Hrun. repeat split; assumption.
Qed.

(** X10. On a valid port, when the bytes on the line start with a
    frame of the expected type (payload of at most 255 bytes) and the
    whole frame has arrived [j] milliseconds after the call, with [j]
    below the timeout, [receiveMessage] returns None with that frame's
    payload no later than millisecond [j], however the frame was split
    into pieces on its way and whatever follows it. *)
Theorem receive_accepts_fragmented (fuel : nat) (port : Z)
  (type : MessageType) (data payload rest : list Z) (timeout : Z)
  (m : IOLinkMaster) (w : World) (j : nat) :
  0 <= port < size m -> is_u32 timeout ->
  Forall is_u8 payload -> (length payload <= 255)%nat ->
  incoming w = buildIOLinkMessage type payload ++ rest ->
  (length payload + 4 <= length (arrived w j))%nat ->
  Z.of_nat j < timeout -> (j < fuel)%nat ->
  exists w',
    receiveMessage fuel port type data timeout m w
    = Some (NONE, payload, m, w') /\
    clock w' - clock w <= Z.of_nat j.
Proof.
  intros Hport Ht Hp Hlen Hin Hfull Hj Hfuel.
  destruct (receiveMessage_accepts fuel port type data payload rest timeout
              m w j) as (w' & Hrun & Hc & _); try assumption.
  exists w'. split; assumption.
Qed.

Lemma receive_accepts_fragmented_witness :
  exists w',
    receiveMessage 4 0 PARAMETER [] 50 (mkMaster [Some dummyDevice])
      (mkWorld 1000 [0xA5] [[0x02; 0x02]; []; [0x0A; 0x0B; 0xA4; 0x99]] [])
    = Some (NONE, [0x0A; 0x0B], mkMaster [Some dummyDevice], w') /\
    clock w' - 1000 <= 3.
Proof.
  apply (receive_accepts_fragmented 4 0 PARAMETER [] [0x0A; 0x0B] [0x99] 50
           (mkMaster [Some dummyDevice])
           (mkWorld 1000 [0xA5] [[0x02; 0x02]; []; [0x0A; 0x0B; 0xA4; 0x99]] [])
           3).
  - vm_compute. split; [discriminate|reflexivity].
  - unfold is_u32; lia.
  - repeat constructor; unfold is_u8; lia.
  - simpl; lia.
  - reflexivity.
  - simpl; lia.
  - lia.
  - lia.
Defined.

(** X11. Whatever arrives and however it ends, [receiveMessage] sends
    nothing, leaves the registry as it was and never sets the clock
    back; it returns None, Timeout or InvalidParameter, and in the last
    two cases the caller's data vector is unchanged. *)
Theorem receiveMessage_effects (fuel : nat) (port : Z) (type : MessageType)
  (data : list Z) (timeout : Z) (m : IOLinkMaster) (w : World)
  (e : ErrorCode) (d : list Z) (m' : IOLinkMaster) (w' : World) :
  receiveMessage fuel port type data timeout m w = Some (e, d, m', w') ->
  m' = m /\ tx_log w' = tx_log w /\ clock w <= clock w' /\
  (e = NONE \/ (e = TIMEOUT \/ e = INVALID_PARAMETER) /\ d = data).
Proof.
  unfold receiveMessage.
  destruct (port >=? size m).
  - intros [= <- <- <- <-]. repeat split; auto; lia.
  - destruct (receive_loop fuel type data timeout (Milliseconds w) [] w)
      as [[[e1 d1] w1]|] eqn:Hrun; [|discriminate].
    intros [= <- <- <- <-].
    apply (receive_loop_effects type data timeout (clock w)) in Hrun.
    destruct Hrun as (Htx & Hc & [He|[He Hd]]); repeat split; auto.
Qed.

Lemma receiveMessage_effects_witness :
  mkMaster [Some dummyDevice] = mkMaster [Some dummyDevice] /\
  tx_log (mkWorld 2 [] [] [0x77]) = tx_log (mkWorld 0 [] [[0xA5]] [0x77]) /\
  clock (mkWorld 0 [] [[0xA5]] [0x77]) <= clock (mkWorld 2 [] [] [0x77]) /\
  (TIMEOUT = NONE \/
   (TIMEOUT = TIMEOUT \/ TIMEOUT = INVALID_PARAMETER) /\ [0x01] = [0x01]).
Proof.
  apply (receiveMessage_effects 5 0 EVENT [0x01] 2
           (mkMaster [Some dummyDevice]) (mkWorld 0 [] [[0xA5]] [0x77])).
  reflexivity.
Defined.

(** X12. On a valid port [receiveMessage] always returns, after at
    most as many polling rounds as the timeout counts milliseconds
    plus one, and never later than the timeout after the call,
    whatever arrives on the line. *)
Theorem receiveMessage_deadline (fuel : nat) (port : Z) (type : MessageType)
  (data : list Z) (timeout : Z) (m : IOLinkMaster) (w : World) :
  0 <= port < size m -> is_u32 timeout ->
  (Z.to_nat timeout < fuel)%nat ->
  exists e d w',
    receiveMessage fuel port type data timeout m w = Some (e, d, m, w') /\
    clock w' - clock w <= timeout.
Proof.
  intros Hport Ht Hfuel. unfold receiveMessage, is_u32 in *.
  destruct (Z.geb_spec port (size m)) as [Hge|_]; [lia|].
  destruct (receive_loop_returns type data timeout (clock w) (proj2 Ht)
              (Z.to_nat timeout) fuel [] w)
    as (e & d & w' & Hrun & Hc); try lia.
  exists e, d, w'. unfold Milliseconds. rewrite Hrun. split; [reflexivity|lia].
Qed.

Lemma receiveMessage_deadline_witness :
  exists e d w',
    receiveMessage 3 0 EVENT [] 2 (mkMaster [Some dummyDevice])
      (mkWorld 0 [0xA5; 0x04] [[0x00; 0xA1]] [])
    = Some (e, d, mkMaster [Some dummyDevice], w') /\
    clock w' - 0 <= 2.
Proof.
  apply (receiveMessage_deadline 3 0 EVENT [] 2 (mkMaster [Some dummyDevice])
           (mkWorld 0 [0xA5; 0x04] [[0x00; 0xA1]] [])).
  - vm_compute. split; [discriminate|reflexivity].
  - unfold is_u32; lia.
  - simpl; lia.
Defined.

(** X13. [receiveMessage] returns a payload only if the bytes offered
    since the call begin with the frame that encodes exactly that
    payload under the expected type; the payload has at most 255
    bytes. *)
Theorem receiveMessage_sound (fuel : nat) (port : Z) (type : MessageType)
  (data : list Z) (timeout : Z) (m : IOLinkMaster) (w : World)
  (d : list Z) (m' : IOLinkMaster) (w' : World) :
  receiveMessage fuel port type data timeout m w = Some (NONE, d, m', w') ->
  (length d <= 255)%nat /\
  exists more, map to_u8 (incoming w) = buildIOLinkMessage type d ++ more.
Proof.
  unfold receiveMessage.
  destruct (port >=? size m); [discriminate|].
  destruct (receive_loop fuel type data timeout (Milliseconds w) [] w)
    as [[[e1 d1] w1]|] eqn:Hrun; [|discriminate].
  intros [= -> -> _ _].
  apply (receive_loop_sound type data timeout (clock w) fuel [] w d w1);
    [constructor|exact Hrun].
Qed.

Lemma receiveMessage_sound_witness :
  (length [0x42] <= 255)%nat /\
  exists more,
    map to_u8 (incoming (mkWorld 0 [] [[0xA5; 0x01]; [0x01; 0x42; 0xE7; 0x00]] []))
    = buildIOLinkMessage PROCESS_DATA [0x42] ++ more.
Proof.
  apply (receiveMessage_sound 5 0 PROCESS_DATA [] 10
           (mkMaster [Some dummyDevice])
           (mkWorld 0 [] [[0xA5; 0x01]; [0x01; 0x42; 0xE7; 0x00]] [])
           [0x42] (mkMaster [Some dummyDevice]) (mkWorld 2 [] [] [])).
  reflexivity.
Defined.

(* ------------------------------------------------------------------ *)
(** ** Event dispatch *)

Lemma bytes_available_frame (w : World) (type : MessageType)
  (payload extra : list Z) :
  rx_fifo w = buildIOLinkMessage type payload ++ extra ->
  (BytesAvailable w >? 0) = true.
Proof.
  intros Hrx. unfold BytesAvailable.
  rewrite Hrx, length_app, build_length.
  destruct (Z.gtb_spec (Z.of_nat (length payload + 4 + length extra)) 0);
    [reflexivity|lia].
Qed.

(** When nothing is dispatched, because no callback is registered or
    because the buffered bytes do not decode to an Event frame,
    [processEvents] empties the receive buffer and does nothing else. *)
Lemma processEvents_no_dispatch {A : Type}
  (m_eventCallback : option (EventCallback A)) (w : World) (app : A) :
  m_eventCallback = None \/
  (forall payload,
      parseIOLinkMessage (map to_u8 (rx_fifo w)) <> Parsed EVENT payload) ->
  processEvents m_eventCallback w app
  = (mkWorld (clock w) [] (line w) (tx_log w), app).
Proof.
  intros Hnone. unfold processEvents.
  destruct (BytesAvailable w >? 0) eqn:Hav.
  - rewrite read_available_spec. cbn [List.app].
    destruct (parseIOLinkMessage (map to_u8 (rx_fifo w)))
      as [receivedType payload|e] eqn:E; [|reflexivity].
    destruct (MessageType_eqb receivedType EVENT) eqn:Et; [|reflexivity].
    apply MessageType_eqb_eq in Et. subst receivedType.
    destruct Hnone as [->|Hnot]; [reflexivity|].
    exfalso. exact (Hnot payload eq_refl).
  - apply no_bytes_available in Hav. destruct w as [c rx l t].
    cbn [rx_fifo] in Hav. subst rx. reflexivity.
Qed.

(** X14. When the receive buffer starts with an Event frame (payload
    of at most 255 bytes), [processEvents] calls the registered
    callback exactly once, with port 0 and the frame's payload, and
    empties the buffer, the bytes after the frame included; with no
    callback registered the buffer is emptied all the same and nothing
    is called. *)
Theorem processEvents_dispatches {A : Type} (callback : EventCallback A)
  (w : World) (app : A) (payload extra : list Z) :
  Forall is_u8 payload -> (length payload <= 255)%nat ->
  rx_fifo w = buildIOLinkMessage EVENT payload ++ extra ->
  processEvents (Some callback) w app
  = (mkWorld (clock w) [] (line w) (tx_log w), callback 0 payload app) /\
  processEvents None w app
  = (mkWorld (clock w) [] (line w) (tx_log w), app).
Proof.
  intros Hp Hlen Hrx. unfold processEvents.
  rewrite (bytes_available_frame w EVENT payload extra Hrx).
  rewrite read_available_spec. cbn [List.app].
  rewrite Hrx, map_app, (map_to_u8_id _ (build_u8 EVENT payload Hp)).
  rewrite parse_build_app by exact Hlen.
  cbn [MessageType_eqb]. split; reflexivity.
Qed.

Lemma processEvents_dispatches_witness :
  processEvents
    (Some (fun port payload log => log ++ [(port, payload)]))
    (mkWorld 3 [0xA5; 0x04; 0x01; 0x07; 0xA7; 0x55] [[0x01]] [0x00])
    [(0, [0x01])]
  = (mkWorld 3 [] [[0x01]] [0x00], [(0, [0x01]); (0, [0x07])]).
Proof.
  apply (processEvents_dispatches
           (fun port payload log => log ++ [(port, payload)])
           (mkWorld 3 [0xA5; 0x04; 0x01; 0x07; 0xA7; 0x55] [[0x01]] [0x00])
           [(0, [0x01])] [0x07] [0x55]).
  - repeat constructor; unfold is_u8; lia.
  - simpl; lia.
  - reflexivity.
Defined.

(** X15. Whenever [processEvents] does not dispatch, that is when no
    callback is registered or the buffered bytes do not decode to an
    Event frame, it calls nothing, still empties the receive buffer,
    sends nothing and takes no time. *)
Theorem processEvents_drains {A : Type}
  (m_eventCallback : option (EventCallback A)) (w : World) (app : A) :
  m_eventCallback = None \/
  (forall payload,
      parseIOLinkMessage (map to_u8 (rx_fifo w)) <> Parsed EVENT payload) ->
  processEvents m_eventCallback w app
  = (mkWorld (clock w) [] (line w) (tx_log w), app).
Proof.
  intros Hnone.
  destruct Hnone as [Hcb|Hnot]; apply processEvents_no_dispatch; auto.
Qed.

Lemma processEvents_drains_witness :
  processEvents
    (Some (fun port payload log => log ++ [(port, payload)]))
    (mkWorld 4 [0xA5; 0x01; 0x00; 0xA4] [[0xA1]] [0x33]) [(0, [0x01])]
  = (mkWorld 4 [] [[0xA1]] [0x33], [(0, [0x01])]).
Proof.
  apply (processEvents_drains
           (Some (fun port payload log => log ++ [(port, payload)]))
           (mkWorld 4 [0xA5; 0x01; 0x00; 0xA4] [[0xA1]] [0x33])
           [(0, [0x01])]).
  right. intros payload. vm_compute. discriminate.
Defined.

(** X16. A response that [processEvents] finds in the receive buffer
    is lost: with a complete frame of a type other than Event buffered
    and nothing more on the line, [receiveMessage] for that type would
    return its payload, but after one [processEvents], which calls
    nothing, the same [receiveMessage] ends with Timeout. *)
Theorem processEvents_swallows_response {A : Type}
  (m_eventCallback : option (EventCallback A)) (app : A) (fuel : nat)
  (port : Z) (type : MessageType) (data payload : list Z) (timeout : Z)
  (m : IOLinkMaster) (w : World) :
  type <> EVENT -> Forall is_u8 payload -> (length payload <= 255)%nat ->
  0 <= port < size m -> is_u32 timeout -> 0 < timeout ->
  (Z.to_nat timeout < fuel)%nat ->
  rx_fifo w = buildIOLinkMessage type payload -> line w = [] ->
  (exists w1,
      receiveMessage fuel port type data timeout m w
      = Some (NONE, payload, m, w1)) /\
  snd (processEvents m_eventCallback w app) = app /\
  (exists w2,
      receiveMessage fuel port type data timeout m
        (fst (processEvents m_eventCallback w app))
      = Some (TIMEOUT, data, m, w2)).
Proof.
  intros Hne Hp Hlen Hport Ht Hpos Hfuel Hrx Hline. split; [|split].
  - destruct (receiveMessage_accepts fuel port type data payload [] timeout
                m w 0) as (w1 & Hrun & _); try assumption; try lia.
    + unfold incoming. rewrite Hrx, Hline. reflexivity.
    + unfold arrived. rewrite Hrx, length_app, build_length. lia.
    + exists w1. exact Hrun.
  - unfold processEvents.
    rewrite (bytes_available_frame w type payload []
               ltac:(rewrite app_nil_r; exact Hrx)).
    rewrite read_available_spec. cbn [List.app].
    rewrite Hrx, (map_to_u8_id _ (build_u8 type payload Hp)).
    rewrite parse_build by exact Hlen.
    destruct (MessageType_eqb type EVENT) eqn:Et; [|reflexivity].
    apply MessageType_eqb_eq in Et. contradiction.
  - rewrite processEvents_no_dispatch, Hline.
    2:{ right. intros payload'.
        rewrite Hrx, (map_to_u8_id _ (build_u8 type payload Hp)).
        rewrite parse_build by exact Hlen. congruence. }
    cbn [fst].
    destruct (receiveMessage_times_out fuel port type data timeout m
                (mkWorld (clock w) [] [] (tx_log w)))
      as (w2 & Hrun & _); try assumption.
    + intros n receivedType payload'. cbn. rewrite firstn_nil.
      discriminate.
    + exists w2. exact Hrun.
Qed.

Lemma processEvents_swallows_response_witness :
  exists w2,
    receiveMessage 6 0 PROCESS_DATA [0x09] 5 (mkMaster [Some dummyDevice])
      (fst (processEvents (@None (EventCallback unit))
              (mkWorld 0 (buildIOLinkMessage PROCESS_DATA [0x42]) [] []) tt))
    = Some (TIMEOUT, [0x09], mkMaster [Some dummyDevice], w2).
Proof.
  apply (processEvents_swallows_response (@None (EventCallback unit)) tt 6 0
           PROCESS_DATA [0x09] [0x42] 5 (mkMaster [Some dummyDevice])
           (mkWorld 0 (buildIOLinkMessage PROCESS_DATA [0x42]) [] [])).
  - discriminate.
  - repeat constructor; unfold is_u8; lia.
  - simpl; lia.
  - vm_compute. split; [discriminate|reflexivity].
  - unfold is_u32; lia.
  - lia.
  - simpl; lia.
  - reflexivity.
  - reflexivity.
Defined.

(* ------------------------------------------------------------------ *)
(** ** Zero timeout *)

(** X17. With timeout 0 [receiveMessage] on a valid port returns
    Timeout at once: it reads nothing, so even a complete frame of the
    expected type that is already buffered stays in the receive buffer
    and is not returned. *)
Theorem receive_zero_timeout (fuel : nat) (port : Z) (type : MessageType)
  (data : list Z) (m : IOLinkMaster) (w : World) :
  0 <= port < size m -> (0 < fuel)%nat ->
  receiveMessage fuel port type data 0 m w = Some (TIMEOUT, data, m, w).
Proof.
  intros Hport Hfuel. unfold receiveMessage.
  destruct (Z.geb_spec port (size m)) as [Hge|_]; [lia|].
  destruct fuel as [|fuel]; [lia|]. cbn [receive_loop].
  unfold sub32, to_u32.
  destruct (Z.ltb_spec ((Milliseconds w - Milliseconds w) mod 4294967296) 0)
    as [Hneg|_]; [|reflexivity].
  pose proof (Z.mod_pos_bound (Milliseconds w - Milliseconds w) 4294967296
                ltac:(lia)). lia.
Qed.

Lemma receive_zero_timeout_witness :
  receiveMessage 1 0 PROCESS_DATA [] 0 (mkMaster [Some dummyDevice])
    (mkWorld 8 (buildIOLinkMessage PROCESS_DATA [0x42]) [] [])
  = Some (TIMEOUT, [], mkMaster [Some dummyDevice],
          mkWorld 8 (buildIOLinkMessage PROCESS_DATA [0x42]) [] []).
Proof.
  apply (receive_zero_timeout 1 0 PROCESS_DATA [] (mkMaster [Some dummyDevice])
           (mkWorld 8 (buildIOLinkMessage PROCESS_DATA [0x42]) [] [])).
  - vm_compute. split; [discriminate|reflexivity].
  - lia.
Defined.
